(** * CallbackNotifier: the emulated camera's callback dispatcher

    A shallow embedding of [camera/CallbackNotifier.cpp] (goldfish emulated
    camera HAL) and the properties of its dispatch logic.

    Conventions of the embedding:
    - C integers are [Z]; [uint32_t] masks are combined with [Z.lor],
      [Z.land], [Z.lxor]; the 64-bit [nsecs_t] subtraction of the pacing
      test is carried out in two's complement ([wrap64]).
    - Pointers (function pointers, [void*], buffer addresses) are addresses
      in [Z], with [NULL = 0]; a [camera_memory_t*] that may be null is an
      [option camera_memory_t].
    - Everything the notifier does to the outside world (client callbacks,
      allocator requests, buffer releases, EXIF and JPEG collaborators) is
      appended to a trace of [event]s.
    - A call through a null function pointer and an integer division by
      zero stop the execution with a [fault].
    - The object lock is not modelled: every operation runs to completion
      on its own, and client callbacks do not re-enter the notifier. *)

From Stdlib Require Import ZArith List Bool Lia String.
From stdpp Require Import base list.
From Equations Require Import Equations.
Import ListNotations.

Local Open Scope Z_scope.

(** ** Machine-level data *)

Definition ptr := Z.
Definition NULL : ptr := 0.

Definition status_t := Z.
Definition NO_ERROR : status_t := 0.
Definition BAD_VALUE : status_t := -22.
Definition INVALID_OPERATION : status_t := -38.

Definition INT64_MIN : Z := - 2 ^ 63.
Definition INT64_MAX : Z := 2 ^ 63 - 1.

(** Result of a signed 64-bit operation, reduced to two's complement. *)
Definition wrap64 (z : Z) : Z := (z + 2 ^ 63) mod 2 ^ 64 - 2 ^ 63.

(** Camera message kinds (bit [i] is entry [i] of [lCameraMessages]). *)
Definition CAMERA_MSG_ERROR            : Z := 0x0001.
Definition CAMERA_MSG_SHUTTER          : Z := 0x0002.
Definition CAMERA_MSG_FOCUS            : Z := 0x0004.
Definition CAMERA_MSG_ZOOM             : Z := 0x0008.
Definition CAMERA_MSG_PREVIEW_FRAME    : Z := 0x0010.
Definition CAMERA_MSG_VIDEO_FRAME      : Z := 0x0020.
Definition CAMERA_MSG_POSTVIEW_FRAME   : Z := 0x0040.
Definition CAMERA_MSG_RAW_IMAGE        : Z := 0x0080.
Definition CAMERA_MSG_COMPRESSED_IMAGE : Z := 0x0100.
Definition CAMERA_MSG_RAW_IMAGE_NOTIFY : Z := 0x0200.
Definition CAMERA_MSG_PREVIEW_METADATA : Z := 0x0400.

(** String representation of camera messages. *)
Definition lCameraMessages : list string :=
  [ "CAMERA_MSG_ERROR"; "CAMERA_MSG_SHUTTER"; "CAMERA_MSG_FOCUS";
    "CAMERA_MSG_ZOOM"; "CAMERA_MSG_PREVIEW_FRAME"; "CAMERA_MSG_VIDEO_FRAME";
    "CAMERA_MSG_POSTVIEW_FRAME"; "CAMERA_MSG_RAW_IMAGE";
    "CAMERA_MSG_COMPRESSED_IMAGE"; "CAMERA_MSG_RAW_IMAGE_NOTIFY";
    "CAMERA_MSG_PREVIEW_METADATA" ]%string.

Definition lCameraMessagesNum : Z := Z.of_nat (length lCameraMessages).

(** A buffer handed out by the host allocator: the address of the
    [camera_memory_t] itself and its payload pointer. *)
Record camera_memory_t := {
  mem_addr : ptr;
  data : ptr;
  mem_size : Z
}.

(** The two parameters the notifier reads from its parameter snapshot. *)
Record CameraParameters := {
  KEY_JPEG_THUMBNAIL_WIDTH : Z;
  KEY_JPEG_THUMBNAIL_HEIGHT : Z
}.

Record EmulatedCameraDevice := {
  getFrameBufferSize : Z;
  getFrameWidth : Z;
  getFrameHeight : Z
}.

(** ** Observable actions *)

Inductive event :=
| EvNotify (msg_type ext1 ext2 : Z) (user : ptr)
| EvData (msg_type : Z) (mem : camera_memory_t) (index : Z)
         (metadata user : ptr)
| EvDataTimestamp (timestamp msg_type : Z) (mem : camera_memory_t)
                  (index : Z) (user : ptr)
| EvGetMemory (fd buf_size num_bufs : Z) (user : ptr)
| EvMemcpy (dst src : ptr) (n : Z)
| EvRelease (mem : camera_memory_t)
| EvCreateExif (exif : ptr)
| EvCreateThumbnail (frame : ptr) (width height thumbWidth thumbHeight
                     quality : Z) (exif : ptr)
| EvCompress (frame : ptr) (width height quality : Z) (exif : ptr)
| EvGetCompressedImage (dst : ptr)
| EvFreeExif (exif : ptr).

Inductive endpoint := NotifyCB | DataCB | DataCBTimestamp | GetMemoryCB.

Inductive fault :=
| NullCall (e : endpoint)
| DivideByZero.

(** ** The notifier object *)

Record CallbackNotifier := {
  mNotifyCB : ptr;
  mDataCB : ptr;
  mDataCBTimestamp : ptr;
  mGetMemoryCB : ptr;
  mCBOpaque : ptr;
  mLastFrameTimestamp : Z;
  mFrameRefreshFreq : Z;
  mMessageEnabler : Z;
  mJpegQuality : Z;
  mVideoRecEnabled : bool;
  mTakingPicture : bool;
  mCameraParameters : CameraParameters;
  mCameraMemoryTs : list camera_memory_t
}.

(** The constructor's initial state. *)
Definition newCallbackNotifier : CallbackNotifier :=
  {| mNotifyCB := NULL; mDataCB := NULL; mDataCBTimestamp := NULL;
     mGetMemoryCB := NULL; mCBOpaque := NULL;
     mLastFrameTimestamp := 0; mFrameRefreshFreq := 0;
     mMessageEnabler := 0; mJpegQuality := 90;
     mVideoRecEnabled := false; mTakingPicture := false;
     mCameraParameters := {| KEY_JPEG_THUMBNAIL_WIDTH := 0;
                             KEY_JPEG_THUMBNAIL_HEIGHT := 0 |};
     mCameraMemoryTs := [] |}.

Definition set_callbacks (n d t g u : ptr) (s : CallbackNotifier) :=
  {| mNotifyCB := n; mDataCB := d; mDataCBTimestamp := t;
     mGetMemoryCB := g; mCBOpaque := u;
     mLastFrameTimestamp := mLastFrameTimestamp s;
     mFrameRefreshFreq := mFrameRefreshFreq s;
     mMessageEnabler := mMessageEnabler s;
     mJpegQuality := mJpegQuality s;
     mVideoRecEnabled := mVideoRecEnabled s;
     mTakingPicture := mTakingPicture s;
     mCameraParameters := mCameraParameters s;
     mCameraMemoryTs := mCameraMemoryTs s |}.

Definition set_mLastFrameTimestamp (v : Z) (s : CallbackNotifier) :=
  {| mNotifyCB := mNotifyCB s; mDataCB := mDataCB s;
     mDataCBTimestamp := mDataCBTimestamp s;
     mGetMemoryCB := mGetMemoryCB s; mCBOpaque := mCBOpaque s;
     mLastFrameTimestamp := v;
     mFrameRefreshFreq := mFrameRefreshFreq s;
     mMessageEnabler := mMessageEnabler s;
     mJpegQuality := mJpegQuality s;
     mVideoRecEnabled := mVideoRecEnabled s;
     mTakingPicture := mTakingPicture s;
     mCameraParameters := mCameraParameters s;
     mCameraMemoryTs := mCameraMemoryTs s |}.

Definition set_mFrameRefreshFreq (v : Z) (s : CallbackNotifier) :=
  {| mNotifyCB := mNotifyCB s; mDataCB := mDataCB s;
     mDataCBTimestamp := mDataCBTimestamp s;
     mGetMemoryCB := mGetMemoryCB s; mCBOpaque := mCBOpaque s;
     mLastFrameTimestamp := mLastFrameTimestamp s;
     mFrameRefreshFreq := v;
     mMessageEnabler := mMessageEnabler s;
     mJpegQuality := mJpegQuality s;
     mVideoRecEnabled := mVideoRecEnabled s;
     mTakingPicture := mTakingPicture s;
     mCameraParameters := mCameraParameters s;
     mCameraMemoryTs := mCameraMemoryTs s |}.

Definition set_mMessageEnabler (v : Z) (s : CallbackNotifier) :=
  {| mNotifyCB := mNotifyCB s; mDataCB := mDataCB s;
     mDataCBTimestamp := mDataCBTimestamp s;
     mGetMemoryCB := mGetMemoryCB s; mCBOpaque := mCBOpaque s;
     mLastFrameTimestamp := mLastFrameTimestamp s;
     mFrameRefreshFreq := mFrameRefreshFreq s;
     mMessageEnabler := v;
     mJpegQuality := mJpegQuality s;
     mVideoRecEnabled := mVideoRecEnabled s;
     mTakingPicture := mTakingPicture s;
     mCameraParameters := mCameraParameters s;
     mCameraMemoryTs := mCameraMemoryTs s |}.

Definition set_mVideoRecEnabled (v : bool) (s : CallbackNotifier) :=
  {| mNotifyCB := mNotifyCB s; mDataCB := mDataCB s;
     mDataCBTimestamp := mDataCBTimestamp s;
     mGetMemoryCB := mGetMemoryCB s; mCBOpaque := mCBOpaque s;
     mLastFrameTimestamp := mLastFrameTimestamp s;
     mFrameRefreshFreq := mFrameRefreshFreq s;
     mMessageEnabler := mMessageEnabler s;
     mJpegQuality := mJpegQuality s;
     mVideoRecEnabled := v;
     mTakingPicture := mTakingPicture s;
     mCameraParameters := mCameraParameters s;
     mCameraMemoryTs := mCameraMemoryTs s |}.

Definition set_mTakingPicture (v : bool) (s : CallbackNotifier) :=
  {| mNotifyCB := mNotifyCB s; mDataCB := mDataCB s;
     mDataCBTimestamp := mDataCBTimestamp s;
     mGetMemoryCB := mGetMemoryCB s; mCBOpaque := mCBOpaque s;
     mLastFrameTimestamp := mLastFrameTimestamp s;
     mFrameRefreshFreq := mFrameRefreshFreq s;
     mMessageEnabler := mMessageEnabler s;
     mJpegQuality := mJpegQuality s;
     mVideoRecEnabled := mVideoRecEnabled s;
     mTakingPicture := v;
     mCameraParameters := mCameraParameters s;
     mCameraMemoryTs := mCameraMemoryTs s |}.

Definition set_mCameraMemoryTs (v : list camera_memory_t)
           (s : CallbackNotifier) :=
  {| mNotifyCB := mNotifyCB s; mDataCB := mDataCB s;
     mDataCBTimestamp := mDataCBTimestamp s;
     mGetMemoryCB := mGetMemoryCB s; mCBOpaque := mCBOpaque s;
     mLastFrameTimestamp := mLastFrameTimestamp s;
     mFrameRefreshFreq := mFrameRefreshFreq s;
     mMessageEnabler := mMessageEnabler s;
     mJpegQuality := mJpegQuality s;
     mVideoRecEnabled := mVideoRecEnabled s;
     mTakingPicture := mTakingPicture s;
     mCameraParameters := mCameraParameters s;
     mCameraMemoryTs := v |}.

(** ** Execution monad: state, trace and faults *)

(** The notifier together with the history of its observable actions. *)
Record Sys := {
  self : CallbackNotifier;
  trace : list event
}.

Inductive result (S A : Type) :=
| Ok (a : A) (s : S)
| Crash (f : fault) (s : S).
Arguments Ok {S A} a s.
Arguments Crash {S A} f s.

Definition M (S A : Type) := S -> result S A.

Definition ret {S A} (a : A) : M S A := fun s => Ok a s.

Definition bind {S A B} (c : M S A) (k : A -> M S B) : M S B :=
  fun s => match c s with
           | Ok a s' => k a s'
           | Crash f s' => Crash f s'
           end.

Definition crash {S A} (f : fault) : M S A := fun s => Crash f s.

Declare Scope cam_scope.
Delimit Scope cam_scope with cam.
Notation "x <- c ;; k" := (bind c (fun x => k))
  (at level 100, c at next level, right associativity) : cam_scope.
Notation "c ;; k" := (bind c (fun _ => k))
  (at level 100, right associativity) : cam_scope.
Local Open Scope cam_scope.

Definition get_self : M Sys CallbackNotifier := fun w => Ok (self w) w.

Definition modify_self (f : CallbackNotifier -> CallbackNotifier)
  : M Sys unit :=
  fun w => Ok tt {| self := f (self w); trace := trace w |}.

Definition get_trace : M Sys (list event) := fun w => Ok (trace w) w.

Definition emit (e : event) : M Sys unit :=
  fun w => Ok tt {| self := self w; trace := trace w ++ [e] |}.

(** Run an operation of the object alone inside the whole system. *)
Definition lift {A} (c : M CallbackNotifier A) : M Sys A :=
  fun w => match c (self w) with
           | Ok a s' => Ok a {| self := s'; trace := trace w |}
           | Crash f s' => Crash f {| self := s'; trace := trace w |}
           end.

(** ** External collaborators

    The host allocator behind [mGetMemoryCB], the EXIF builder, the
    thumbnail generator and the JPEG compressor are not part of the
    notifier. Their answers are parameters: the allocator may answer
    differently on every request (it sees the history so far); the others
    are functions of their arguments. *)

Record Host := {
  request_memory : list event -> Z -> option camera_memory_t;
  createExifData : CameraParameters -> ptr;
  createThumbnail : ptr -> Z -> Z -> Z -> Z -> Z -> ptr -> bool;
  compressRawImage : ptr -> Z -> Z -> Z -> ptr -> status_t;
  getCompressedSize : ptr -> Z -> Z -> Z -> ptr -> Z
}.

(** ** Inline accessors of the class declaration *)

(** Modelled from the spec: [isMessageEnabled] is declared inline in
    CallbackNotifier.h, which is not among the sources; it is the
    single-word read of the mask, true when the queried bits intersect
    the enabled ones. *)
Definition isMessageEnabled (msg_type : Z) (s : CallbackNotifier) : bool :=
  negb (Z.land (mMessageEnabler s) msg_type =? 0).

(** Modelled from the spec: [isVideoRecordingEnabled] is declared inline
    in CallbackNotifier.h; it reads the recording-active flag. *)
Definition isVideoRecordingEnabled (s : CallbackNotifier) : bool :=
  mVideoRecEnabled s.

(** Modelled from the spec: [setTakingPicture] is declared inline in
    CallbackNotifier.h; the still-capture request stores the
    capture-intent flag. *)
Definition setTakingPicture (taking : bool) (s : CallbackNotifier)
  : CallbackNotifier :=
  set_mTakingPicture taking s.

(** ** Message strings *)

(** The inner loop of [GetMessageStrings]: skip the clear low bits. *)
Equations? skip_clear_bits (msg index : Z) : Z * Z
  by wf (Z.to_nat (lCameraMessagesNum - index)) lt :=
  skip_clear_bits msg index with Z.eq_dec (Z.land msg 1) 0 => {
    | left _ with Z_lt_dec index lCameraMessagesNum => {
      | left _ := skip_clear_bits (Z.shiftr msg 1) (index + 1);
      | right _ := (msg, index) };
    | right _ := (msg, index) }.
Proof. lia. Qed.

Lemma skip_clear_bits_exit (msg index : Z) :
  index <= snd (skip_clear_bits msg index) /\
  (Z.land (fst (skip_clear_bits msg index)) 1 <> 0 \/
   lCameraMessagesNum <= snd (skip_clear_bits msg index)).
Proof.
  funelim (skip_clear_bits msg index); simpl;
    try (split; [lia | solve [left; assumption | right; lia]]).
  match goal with IH : _ /\ _ |- _ => destruct IH as [IH1 IH2] end.
  split; [lia | exact IH2].
Qed.

Definition inspect {A} (a : A) : {b : A | a = b} := exist _ a eq_refl.

(** [GetMessageStrings(msg, strings, max)]: the outer loop, started by
    [GetMessageStrings] below with [index = 0] and [out = 0]. The array
    behind [strings] is a list; the result is the number of strings saved
    and the array afterwards. *)
Equations? GetMessageStrings_loop (msg : Z) (strings : list string)
  (max' index out : Z) : Z * list string
  by wf (Z.to_nat (lCameraMessagesNum - index)) lt :=
  GetMessageStrings_loop msg strings max' index out
    with bool_dec (negb (msg =? 0) && (out <? max')
                   && (index <? lCameraMessagesNum)) true => {
    | right _ := (out, strings);
    | left _ with inspect (skip_clear_bits msg index) => {
      | exist _ (msg', index') _
          with bool_dec (negb (Z.land msg' 1 =? 0)
                         && (index' <? lCameraMessagesNum)) true => {
        | left _ :=
            GetMessageStrings_loop (Z.shiftr msg' 1)
              (<[Z.to_nat out := nth (Z.to_nat index') lCameraMessages EmptyString]>
                 strings)
              max' (index' + 1) (out + 1);
        | right _ := GetMessageStrings_loop msg' strings max' index' out } } }.
Proof.
  - pose proof (skip_clear_bits_exit msg index) as [Hle _].
    rewrite e0 in Hle; simpl in Hle.
    apply andb_prop in e1 as [_ e1]. apply Z.ltb_lt in e1. lia.
  - pose proof (skip_clear_bits_exit msg index) as [Hle Hex].
    rewrite e0 in Hle, Hex; simpl in Hle, Hex.
    apply andb_prop in e as [_ e]. apply Z.ltb_lt in e.
    assert (lCameraMessagesNum <= index').
    { destruct Hex as [Hb | Hi]; [| exact Hi].
      destruct (Z.ltb_spec index' lCameraMessagesNum); [| assumption].
      exfalso. apply n. apply andb_true_intro. split; [| reflexivity].
      apply negb_true_iff. apply Z.eqb_neq. exact Hb. }
    lia.
Qed.

Definition GetMessageStrings (msg : Z) (strings : list string) (max' : Z)
  : Z * list string :=
  GetMessageStrings_loop msg strings max' 0 0.

(** ** Camera API *)

Definition setCallbacks (notify_cb data_cb data_cb_timestamp get_memory
                         user : ptr) (s : CallbackNotifier)
  : CallbackNotifier :=
  set_callbacks notify_cb data_cb data_cb_timestamp get_memory user s.

Definition enableMessage (msg_type : Z) (s : CallbackNotifier)
  : CallbackNotifier :=
  set_mMessageEnabler (Z.lor (mMessageEnabler s) msg_type) s.

Definition disableMessage (msg_type : Z) (s : CallbackNotifier)
  : CallbackNotifier :=
  set_mMessageEnabler
    (Z.land (mMessageEnabler s) (Z.lxor msg_type 0xFFFFFFFF)) s.

(** [enableVideoRecording(fps)]: the three assignments in source order;
    [1000000000LL / fps] is C++ integer division (truncating), undefined
    for a zero divisor. *)
Definition enableVideoRecording (fps : Z) : M CallbackNotifier status_t :=
  fun s =>
    let s1 := set_mVideoRecEnabled true s in
    let s2 := set_mLastFrameTimestamp 0 s1 in
    if fps =? 0 then Crash DivideByZero s2
    else Ok NO_ERROR (set_mFrameRefreshFreq (Z.quot 1000000000 fps) s2).

Definition disableVideoRecording (s : CallbackNotifier) : CallbackNotifier :=
  set_mFrameRefreshFreq 0
    (set_mLastFrameTimestamp 0 (set_mVideoRecEnabled false s)).

(** The scan of [releaseRecordingFrame] over the list of outstanding
    buffers: the first entry whose payload pointer is [opaque] is released
    and erased, and the scan stops. Returns the buffer released, if any,
    and the list afterwards. *)
Fixpoint release_first (opaque : ptr) (l : list camera_memory_t)
  : option camera_memory_t * list camera_memory_t :=
  match l with
  | [] => (None, [])
  | it :: rest =>
      if data it =? opaque then (Some it, rest)
      else let '(r, rest') := release_first opaque rest in (r, it :: rest')
  end.

Definition releaseRecordingFrame (opaque : ptr) : M Sys unit :=
  s <- get_self ;;
  match release_first opaque (mCameraMemoryTs s) with
  | (Some it, l') =>
      emit (EvRelease it) ;;
      modify_self (set_mCameraMemoryTs l')
  | (None, _) => ret tt
  end.

(** Calls through the registered endpoints. *)
Definition call_notify (msg_type ext1 ext2 : Z) : M Sys unit :=
  s <- get_self ;;
  if mNotifyCB s =? NULL then crash (NullCall NotifyCB)
  else emit (EvNotify msg_type ext1 ext2 (mCBOpaque s)).

Definition call_data (msg_type : Z) (mem : camera_memory_t) (index : Z)
           (metadata : ptr) : M Sys unit :=
  s <- get_self ;;
  if mDataCB s =? NULL then crash (NullCall DataCB)
  else emit (EvData msg_type mem index metadata (mCBOpaque s)).

Definition call_data_timestamp (timestamp msg_type : Z)
           (mem : camera_memory_t) (index : Z) : M Sys unit :=
  s <- get_self ;;
  if mDataCBTimestamp s =? NULL then crash (NullCall DataCBTimestamp)
  else emit (EvDataTimestamp timestamp msg_type mem index (mCBOpaque s)).

Definition call_get_memory (host : Host) (fd buf_size num_bufs : Z)
           (user : ptr) : M Sys (option camera_memory_t) :=
  s <- get_self ;;
  if mGetMemoryCB s =? NULL then crash (NullCall GetMemoryCB)
  else
    h <- get_trace ;;
    emit (EvGetMemory fd buf_size num_bufs user) ;;
    ret (request_memory host h buf_size).

(** The test [NULL != buff && NULL != buff->data]. *)
Definition usable (buff : option camera_memory_t) : option camera_memory_t :=
  match buff with
  | Some b => if data b =? NULL then None else Some b
  | None => None
  end.

Definition autoFocusComplete : M Sys unit :=
  call_notify CAMERA_MSG_FOCUS 1 0.

Definition storeMetaDataInBuffers (enable : bool) : status_t :=
  if enable then INVALID_OPERATION else NO_ERROR.

(** ** Public API *)

Definition cleanupCBNotifier (s : CallbackNotifier) : CallbackNotifier :=
  {| mMessageEnabler := 0;
     mNotifyCB := NULL;
     mDataCB := NULL;
     mDataCBTimestamp := NULL;
     mGetMemoryCB := NULL;
     mCBOpaque := NULL;
     mLastFrameTimestamp := 0;
     mFrameRefreshFreq := 0;
     mJpegQuality := 90;
     mVideoRecEnabled := false;
     mTakingPicture := false;
     mCameraParameters := mCameraParameters s;
     mCameraMemoryTs := mCameraMemoryTs s |}.

(** ** Private API *)

Definition isNewVideoFrameTime (timestamp : Z) (s : CallbackNotifier)
  : bool * CallbackNotifier :=
  if mFrameRefreshFreq s <=? wrap64 (timestamp - mLastFrameTimestamp s)
  then (true, set_mLastFrameTimestamp timestamp s)
  else (false, s).

Definition do_isNewVideoFrameTime (timestamp : Z) : M Sys bool :=
  lift (fun s => let '(b, s') := isNewVideoFrameTime timestamp s in Ok b s').

(** ** Frame dispatch *)

Definition message_enabled (msg_type : Z) : M Sys bool :=
  s <- get_self ;; ret (isMessageEnabled msg_type s).

Definition when (b : bool) (c : M Sys unit) : M Sys unit :=
  if b then c else ret tt.

(** The condition of the video branch, evaluated left to right with the
    short circuit of [&&]: the pacing test (and its update of the pacing
    state) only runs when the message is enabled and recording is on. *)
Definition video_frame_due (timestamp : Z) : M Sys bool :=
  s <- get_self ;;
  if isMessageEnabled CAMERA_MSG_VIDEO_FRAME s then
    if isVideoRecordingEnabled s then do_isNewVideoFrameTime timestamp
    else ret false
  else ret false.

Definition videoFrameBranch (host : Host) (frame : ptr) (timestamp : Z)
           (camera_dev : EmulatedCameraDevice) : M Sys unit :=
  due <- video_frame_due timestamp ;;
  when due (
    cam_buff <- call_get_memory host (-1) (getFrameBufferSize camera_dev) 1
                                NULL ;;
    match usable cam_buff with
    | Some b =>
        emit (EvMemcpy (data b) frame (getFrameBufferSize camera_dev)) ;;
        call_data_timestamp timestamp CAMERA_MSG_VIDEO_FRAME b 0 ;;
        modify_self
          (fun s => set_mCameraMemoryTs (mCameraMemoryTs s ++ [b]) s)
    | None => ret tt
    end).

Definition previewFrameBranch (host : Host) (frame : ptr)
           (camera_dev : EmulatedCameraDevice) : M Sys unit :=
  en <- message_enabled CAMERA_MSG_PREVIEW_FRAME ;;
  when en (
    cam_buff <- call_get_memory host (-1) (getFrameBufferSize camera_dev) 1
                                NULL ;;
    match usable cam_buff with
    | Some b =>
        emit (EvMemcpy (data b) frame (getFrameBufferSize camera_dev)) ;;
        call_data CAMERA_MSG_PREVIEW_FRAME b 0 NULL ;;
        emit (EvRelease b)
    | None => ret tt
    end).

(** The CAMERA_MSG_COMPRESSED_IMAGE step of picture taking: EXIF data,
    optional thumbnail, JPEG compression, delivery, EXIF release. *)
Definition compressedImageStep (host : Host) (frame : ptr)
           (camera_dev : EmulatedCameraDevice) : M Sys unit :=
  s <- get_self ;;
  let exifData := createExifData host (mCameraParameters s) in
  emit (EvCreateExif exifData) ;;
  let width := getFrameWidth camera_dev in
  let height := getFrameHeight camera_dev in
  let thumbWidth := KEY_JPEG_THUMBNAIL_WIDTH (mCameraParameters s) in
  let thumbHeight := KEY_JPEG_THUMBNAIL_HEIGHT (mCameraParameters s) in
  when ((0 <? thumbWidth) && (0 <? thumbHeight)) (
    emit (EvCreateThumbnail frame width height thumbWidth thumbHeight
                            (mJpegQuality s) exifData) ;;
    if negb (createThumbnail host frame width height thumbWidth thumbHeight
                             (mJpegQuality s) exifData)
    then ret tt (* not a fatal error, only logged *)
    else ret tt) ;;
  emit (EvCompress frame width height (mJpegQuality s) exifData) ;;
  let res := compressRawImage host frame width height (mJpegQuality s)
                              exifData in
  (if res =? NO_ERROR then
     jpeg_buff <- call_get_memory host (-1)
                    (getCompressedSize host frame width height
                                       (mJpegQuality s) exifData) 1
                                  NULL ;;
     match usable jpeg_buff with
     | Some b =>
         emit (EvGetCompressedImage (data b)) ;;
         call_data CAMERA_MSG_COMPRESSED_IMAGE b 0 NULL ;;
         emit (EvRelease b)
     | None => ret tt
     end
   else ret tt) ;;
  emit (EvFreeExif exifData).

(** The sequence of callbacks during picture taking. *)
Definition pictureCallbacks (host : Host) (frame : ptr)
           (camera_dev : EmulatedCameraDevice) : M Sys unit :=
  shutter <- message_enabled CAMERA_MSG_SHUTTER ;;
  when shutter (call_notify CAMERA_MSG_SHUTTER 0 0) ;;
  raw <- message_enabled CAMERA_MSG_RAW_IMAGE_NOTIFY ;;
  when raw (call_notify CAMERA_MSG_RAW_IMAGE_NOTIFY 0 0) ;;
  compressed <- message_enabled CAMERA_MSG_COMPRESSED_IMAGE ;;
  when compressed (compressedImageStep host frame camera_dev).

Definition takingPictureBranch (host : Host) (frame : ptr)
           (camera_dev : EmulatedCameraDevice) : M Sys unit :=
  s <- get_self ;;
  when (mTakingPicture s) (
    (* This happens just once. *)
    modify_self (set_mTakingPicture false) ;;
    pictureCallbacks host frame camera_dev).

Definition onNextFrameAvailable (host : Host) (frame : ptr) (timestamp : Z)
           (camera_dev : EmulatedCameraDevice) : M Sys unit :=
  videoFrameBranch host frame timestamp camera_dev ;;
  previewFrameBranch host frame camera_dev ;;
  takingPictureBranch host frame camera_dev.

Definition onCameraDeviceError (err : Z) : M Sys unit :=
  s <- get_self ;;
  when (isMessageEnabled CAMERA_MSG_ERROR s && negb (mNotifyCB s =? NULL))
       (call_notify CAMERA_MSG_ERROR err 0).

(** ** Sequences of frames *)

Record Frame := {
  frame_data : ptr;
  frame_timestamp : Z;
  frame_dev : EmulatedCameraDevice
}.

Definition deliver (host : Host) (f : Frame) : M Sys unit :=
  onNextFrameAvailable host (frame_data f) (frame_timestamp f) (frame_dev f).

Fixpoint deliver_all (host : Host) (fs : list Frame) : M Sys unit :=
  match fs with
  | [] => ret tt
  | f :: fs' => deliver host f ;; deliver_all host fs'
  end.

(** The events a frame adds to a history. *)
Definition new_events (before after : Sys) : list event :=
  drop (length (trace before)) (trace after).

(** ** Concrete hosts and states used in examples *)

(** A host whose allocator always succeeds, handing out a fresh buffer per
    request, and whose compressor succeeds. *)
Definition good_host : Host :=
  {| request_memory := fun h size =>
       Some {| mem_addr := 0x1000 + 0x20 * Z.of_nat (length h);
               data := 0x8000 + 0x1000 * Z.of_nat (length h);
               mem_size := size |};
     createExifData := fun _ => 0x500;
     createThumbnail := fun _ _ _ _ _ _ _ => true;
     compressRawImage := fun _ _ _ _ _ => NO_ERROR;
     getCompressedSize := fun _ _ _ _ _ => 4096 |}.

(** A host whose allocator always fails. *)
Definition oom_host : Host :=
  {| request_memory := fun _ _ => None;
     createExifData := fun _ => 0x500;
     createThumbnail := fun _ _ _ _ _ _ _ => false;
     compressRawImage := fun _ _ _ _ _ => NO_ERROR;
     getCompressedSize := fun _ _ _ _ _ => 4096 |}.

(** A host whose compressor fails. *)
Definition bad_jpeg_host : Host :=
  {| request_memory := request_memory good_host;
     createExifData := fun _ => 0x500;
     createThumbnail := fun _ _ _ _ _ _ _ => false;
     compressRawImage := fun _ _ _ _ _ => -1;
     getCompressedSize := fun _ _ _ _ _ => 0 |}.

Definition vga : EmulatedCameraDevice :=
  {| getFrameBufferSize := 460800; getFrameWidth := 640;
     getFrameHeight := 480 |}.

(** A notifier with all four endpoints registered. *)
Definition registered : CallbackNotifier :=
  setCallbacks 0x10 0x20 0x30 0x40 0x50 newCallbackNotifier.

Definition start (s : CallbackNotifier) : Sys :=
  {| self := s; trace := [] |}.

Definition frame_at (t : Z) : Frame :=
  {| frame_data := 0x7000; frame_timestamp := t; frame_dev := vga |}.

(** ** Trace observations *)

Definition in_int64 (z : Z) : Prop := INT64_MIN <= z <= INT64_MAX.

(** All four endpoints have been registered (none is null). *)
Definition all_registered (s : CallbackNotifier) : Prop :=
  mNotifyCB s <> NULL /\ mDataCB s <> NULL /\
  mDataCBTimestamp s <> NULL /\ mGetMemoryCB s <> NULL.

Definition is_video_delivery (e : event) : bool :=
  match e with
  | EvDataTimestamp _ m _ _ _ => m =? CAMERA_MSG_VIDEO_FRAME
  | _ => false
  end.

(** Timestamps of the video frames delivered in a trace. *)
Fixpoint video_timestamps (tr : list event) : list Z :=
  match tr with
  | [] => []
  | EvDataTimestamp t m _ _ _ :: tr' =>
      if m =? CAMERA_MSG_VIDEO_FRAME then t :: video_timestamps tr'
      else video_timestamps tr'
  | _ :: tr' => video_timestamps tr'
  end.

Definition is_notify_of (msg : Z) (e : event) : bool :=
  match e with
  | EvNotify m _ _ _ => m =? msg
  | _ => false
  end.

Definition is_exif_create (e : event) : bool :=
  match e with EvCreateExif _ => true | _ => false end.

Definition is_exif_free (e : event) : bool :=
  match e with EvFreeExif _ => true | _ => false end.

Definition is_compress (e : event) : bool :=
  match e with EvCompress _ _ _ _ _ => true | _ => false end.

(** Any action that belongs to the picture-taking sequence. *)
Definition is_picture_event (e : event) : bool :=
  match e with
  | EvNotify m _ _ _ =>
      (m =? CAMERA_MSG_SHUTTER) || (m =? CAMERA_MSG_RAW_IMAGE_NOTIFY)
  | EvData m _ _ _ _ => m =? CAMERA_MSG_COMPRESSED_IMAGE
  | EvCreateExif _ | EvCreateThumbnail _ _ _ _ _ _ _
  | EvCompress _ _ _ _ _ | EvGetCompressedImage _ | EvFreeExif _ => true
  | _ => false
  end.

(** The three steps of the picture-taking sequence: the two notifications
    and the compression that precedes the compressed-image delivery. *)
Definition is_picture_step (e : event) : bool :=
  is_notify_of CAMERA_MSG_SHUTTER e
  || is_notify_of CAMERA_MSG_RAW_IMAGE_NOTIFY e
  || is_compress e.

Definition count (p : event -> bool) (tr : list event) : nat :=
  length (List.filter p tr).

(** The names of the bits set among the first [lCameraMessagesNum]
    positions of a mask, in ascending bit order. *)
Definition message_names (msg : Z) : list string :=
  map (fun i => nth i lCameraMessages EmptyString)
      (List.filter (fun i => Z.testbit msg (Z.of_nat i))
              (seq 0 (length lCameraMessages))).

(** The same names, read off a mask that has already been shifted right
    [i] times, with [n] table entries left. *)
Fixpoint names_from (n : nat) (msg : Z) (i : nat) : list string :=
  match n with
  | O => []
  | S n' =>
      (if Z.testbit msg 0 then [nth i lCameraMessages EmptyString] else [])
      ++ names_from n' (Z.shiftr msg 1) (S i)
  end.

(** Both of two consecutive pacing tests admit their frame. *)
Definition both_admitted (ta tb : Z) (s : CallbackNotifier) : bool :=
  fst (isNewVideoFrameTime ta s)
  && fst (isNewVideoFrameTime tb (snd (isNewVideoFrameTime ta s))).

(** The scenario of recording at 30 frames per second with only the
    video-frame message enabled. *)
Definition recording30 : result CallbackNotifier status_t :=
  enableVideoRecording 30 (enableMessage CAMERA_MSG_VIDEO_FRAME registered).

(** ** What one frame emits

    The events of each branch of [onNextFrameAvailable], written as lists:
    these are the shapes the run lemmas below establish for the monadic
    code. The allocator's answers are arguments. *)

(** The whole condition of the video branch. *)
Definition video_due (timestamp : Z) (s : CallbackNotifier) : bool :=
  isMessageEnabled CAMERA_MSG_VIDEO_FRAME s && isVideoRecordingEnabled s
  && fst (isNewVideoFrameTime timestamp s).

Definition video_events (f : Frame) (s : CallbackNotifier)
           (buff : option camera_memory_t) : list event :=
  if video_due (frame_timestamp f) s then
    EvGetMemory (-1) (getFrameBufferSize (frame_dev f)) 1 NULL ::
    match usable buff with
    | Some b =>
        [EvMemcpy (data b) (frame_data f) (getFrameBufferSize (frame_dev f));
         EvDataTimestamp (frame_timestamp f) CAMERA_MSG_VIDEO_FRAME b 0
                         (mCBOpaque s)]
    | None => []
    end
  else [].

(** The buffers the video branch appends to the outstanding list. *)
Definition video_registered (f : Frame) (s : CallbackNotifier)
           (buff : option camera_memory_t) : list camera_memory_t :=
  if video_due (frame_timestamp f) s then
    match usable buff with Some b => [b] | None => [] end
  else [].

Definition preview_events (f : Frame) (s : CallbackNotifier)
           (buff : option camera_memory_t) : list event :=
  if isMessageEnabled CAMERA_MSG_PREVIEW_FRAME s then
    EvGetMemory (-1) (getFrameBufferSize (frame_dev f)) 1 NULL ::
    match usable buff with
    | Some b =>
        [EvMemcpy (data b) (frame_data f) (getFrameBufferSize (frame_dev f));
         EvData CAMERA_MSG_PREVIEW_FRAME b 0 NULL (mCBOpaque s);
         EvRelease b]
    | None => []
    end
  else [].

Definition thumbnail_events (f : Frame) (s : CallbackNotifier) (exif : ptr)
  : list event :=
  if (0 <? KEY_JPEG_THUMBNAIL_WIDTH (mCameraParameters s))
     && (0 <? KEY_JPEG_THUMBNAIL_HEIGHT (mCameraParameters s))
  then [EvCreateThumbnail (frame_data f) (getFrameWidth (frame_dev f))
          (getFrameHeight (frame_dev f))
          (KEY_JPEG_THUMBNAIL_WIDTH (mCameraParameters s))
          (KEY_JPEG_THUMBNAIL_HEIGHT (mCameraParameters s))
          (mJpegQuality s) exif]
  else [].

(** What follows the compression: nothing when it failed, the bare
    allocator request when no usable buffer came back, the delivery of the
    compressed image and the immediate release of its buffer otherwise. *)
Definition jpeg_delivery_events (res : status_t) (size : Z)
           (buff : option camera_memory_t) (user : ptr) : list event :=
  if res =? NO_ERROR then
    EvGetMemory (-1) size 1 NULL ::
    match usable buff with
    | Some b =>
        [EvGetCompressedImage (data b);
         EvData CAMERA_MSG_COMPRESSED_IMAGE b 0 NULL user;
         EvRelease b]
    | None => []
    end
  else [].

Definition compressed_image_events (host : Host) (f : Frame)
           (s : CallbackNotifier) (buff : option camera_memory_t)
  : list event :=
  let exif := createExifData host (mCameraParameters s) in
  let width := getFrameWidth (frame_dev f) in
  let height := getFrameHeight (frame_dev f) in
  EvCreateExif exif ::
  thumbnail_events f s exif ++
  EvCompress (frame_data f) width height (mJpegQuality s) exif ::
  jpeg_delivery_events
    (compressRawImage host (frame_data f) width height (mJpegQuality s) exif)
    (getCompressedSize host (frame_data f) width height (mJpegQuality s) exif)
    buff (mCBOpaque s) ++
  [EvFreeExif exif].

Definition picture_events (host : Host) (f : Frame) (s : CallbackNotifier)
           (buff : option camera_memory_t) : list event :=
  (if isMessageEnabled CAMERA_MSG_SHUTTER s
   then [EvNotify CAMERA_MSG_SHUTTER 0 0 (mCBOpaque s)] else []) ++
  (if isMessageEnabled CAMERA_MSG_RAW_IMAGE_NOTIFY s
   then [EvNotify CAMERA_MSG_RAW_IMAGE_NOTIFY 0 0 (mCBOpaque s)] else []) ++
  (if isMessageEnabled CAMERA_MSG_COMPRESSED_IMAGE s
   then compressed_image_events host f s buff else []).

(** The fields a frame never touches. *)
Definition same_setup (s s' : CallbackNotifier) : Prop :=
  mNotifyCB s' = mNotifyCB s /\ mDataCB s' = mDataCB s /\
  mDataCBTimestamp s' = mDataCBTimestamp s /\
  mGetMemoryCB s' = mGetMemoryCB s /\ mCBOpaque s' = mCBOpaque s /\
  mMessageEnabler s' = mMessageEnabler s /\
  mJpegQuality s' = mJpegQuality s /\
  mCameraParameters s' = mCameraParameters s /\
  mVideoRecEnabled s' = mVideoRecEnabled s /\
  mFrameRefreshFreq s' = mFrameRefreshFreq s.

(** ** Logging and further observations *)

(** [PrintMessages(msg)]: the strings handed to the log, one per loop
    iteration. [strs] is the initial content of the local array (it is
    not initialised by the code). *)
Definition PrintMessages (msg : Z) (strs : list string) : list string :=
  let '(translated, strs') :=
    GetMessageStrings msg strs lCameraMessagesNum in
  map (fun n => nth n strs' EmptyString) (seq 0 (Z.to_nat translated)).

Definition uint32 (z : Z) : Prop := 0 <= z < 2 ^ 32.

(** Every timestamp of the list is at least one interval after the one
    before it, the first one after [last]. *)
Fixpoint paced (interval last : Z) (ts : list Z) : Prop :=
  match ts with
  | [] => True
  | t :: ts' => t - last >= interval /\ paced interval t ts'
  end.

(** Buffers handed to the timestamped-data callback as video frames. *)
Fixpoint video_buffers (tr : list event) : list camera_memory_t :=
  match tr with
  | [] => []
  | EvDataTimestamp _ m b _ _ :: tr' =>
      if m =? CAMERA_MSG_VIDEO_FRAME then b :: video_buffers tr'
      else video_buffers tr'
  | _ :: tr' => video_buffers tr'
  end.

(** Buffers handed to the data callback. *)
Fixpoint data_buffers (tr : list event) : list camera_memory_t :=
  match tr with
  | [] => []
  | EvData _ b _ _ _ :: tr' => b :: data_buffers tr'
  | _ :: tr' => data_buffers tr'
  end.

(** Buffers whose release operation was invoked. *)
Fixpoint released_buffers (tr : list event) : list camera_memory_t :=
  match tr with
  | [] => []
  | EvRelease b :: tr' => b :: released_buffers tr'
  | _ :: tr' => released_buffers tr'
  end.

(** Outstanding buffers whose payload pointer is [opaque], and the others. *)
Definition matching (opaque : ptr) (l : list camera_memory_t)
  : list camera_memory_t :=
  List.filter (fun b => data b =? opaque) l.

Definition others (opaque : ptr) (l : list camera_memory_t)
  : list camera_memory_t :=
  List.filter (fun b => negb (data b =? opaque)) l.

(** ** The picture sequence up to the allocation of the JPEG buffer *)

(** The events of the picture-taking sequence that precede the request
    for the compressed image's buffer. *)
Definition picture_prefix (host : Host) (f : Frame) (s : CallbackNotifier)
  : list event :=
  let exif := createExifData host (mCameraParameters s) in
  (if isMessageEnabled CAMERA_MSG_SHUTTER s
   then [EvNotify CAMERA_MSG_SHUTTER 0 0 (mCBOpaque s)] else []) ++
  (if isMessageEnabled CAMERA_MSG_RAW_IMAGE_NOTIFY s
   then [EvNotify CAMERA_MSG_RAW_IMAGE_NOTIFY 0 0 (mCBOpaque s)] else []) ++
  EvCreateExif exif ::
  thumbnail_events f s exif ++
  [EvCompress (frame_data f) (getFrameWidth (frame_dev f))
              (getFrameHeight (frame_dev f)) (mJpegQuality s) exif].

(** The allocator's answer to that request, after the history [hist]. *)
Definition picture_buffer (host : Host) (f : Frame) (s : CallbackNotifier)
           (hist : list event) : option camera_memory_t :=
  request_memory host (hist ++ picture_prefix host f s)
    (getCompressedSize host (frame_data f) (getFrameWidth (frame_dev f))
       (getFrameHeight (frame_dev f)) (mJpegQuality s)
       (createExifData host (mCameraParameters s))).

(** Every data callback is directly followed by the release of the buffer
    it was given, and nothing else is released. [pending] is the buffer of
    a data callback that has just returned. *)
Fixpoint released_after_callback (pending : option camera_memory_t)
         (tr : list event) : Prop :=
  match pending, tr with
  | None, [] => True
  | None, EvData _ b _ _ _ :: tr' => released_after_callback (Some b) tr'
  | None, EvRelease _ :: _ => False
  | None, _ :: tr' => released_after_callback None tr'
  | Some b, EvRelease b' :: tr' => b = b' /\ released_after_callback None tr'
  | Some _, _ => False
  end.

(** * Properties *)

(** ** Cleanup *)

(** C9. [cleanupCBNotifier] empties the message mask, nulls the four
    endpoints and the context, resets the pacing state to (0,0), restores
    the constructor's JPEG quality, clears the recording and
    capture-intent flags, and leaves the list of outstanding buffers as it
    was; run inside the system it releases nothing (the trace does not
    grow). *)
Theorem cleanupCBNotifier_resets_all_but_registry :
  forall w : Sys,
    let s' := cleanupCBNotifier (self w) in
    mMessageEnabler s' = 0 /\
    mNotifyCB s' = NULL /\ mDataCB s' = NULL /\
    mDataCBTimestamp s' = NULL /\ mGetMemoryCB s' = NULL /\
    mCBOpaque s' = NULL /\
    mLastFrameTimestamp s' = 0 /\ mFrameRefreshFreq s' = 0 /\
    mJpegQuality s' = 90 /\ mJpegQuality newCallbackNotifier = 90 /\
    mVideoRecEnabled s' = false /\ mTakingPicture s' = false /\
    mCameraMemoryTs s' = mCameraMemoryTs (self w) /\
    modify_self cleanupCBNotifier w = Ok tt {| self := s'; trace := trace w |}.
Proof.
  intros w s'. subst s'. unfold modify_self. simpl.
  repeat split; reflexivity.
Qed.

(** ** Releasing recording frames *)

Lemma release_first_none (opaque : ptr) (l : list camera_memory_t) :
  (forall b, In b l -> data b <> opaque) ->
  release_first opaque l = (None, l).
Proof.
  induction l as [| it rest IH]; intros Hno; simpl; [reflexivity |].
  destruct (Z.eqb_spec (data it) opaque) as [Heq | Hne].
  - exfalso. apply (Hno it); [left; reflexivity | exact Heq].
  - rewrite IH; [reflexivity |]. intros b Hb. apply Hno. right. exact Hb.
Qed.

Lemma release_first_some (opaque : ptr) (l : list camera_memory_t) :
  (exists b, In b l /\ data b = opaque) ->
  exists l1 it l2,
    l = l1 ++ it :: l2 /\
    (forall b, In b l1 -> data b <> opaque) /\
    data it = opaque /\
    release_first opaque l = (Some it, l1 ++ l2).
Proof.
  induction l as [| x rest IH]; intros [b [Hin Hb]]; [destruct Hin |].
  simpl. destruct (Z.eqb_spec (data x) opaque) as [Heq | Hne].
  - exists [], x, rest. split; [reflexivity |].
    split; [intros b' [] |]. split; [exact Heq | reflexivity].
  - destruct Hin as [-> | Hin]; [congruence |].
    destruct IH as (l1 & it & l2 & Hl & Hno & Hit & Hrel); [eauto |].
    exists (x :: l1), it, l2. rewrite Hrel, Hl. repeat split; auto.
    intros b' [<- | Hb']; auto.
Qed.

Lemma registry_match_dec (opaque : ptr) (l : list camera_memory_t) :
  (exists b, In b l /\ data b = opaque) \/
  (forall b, In b l -> data b <> opaque).
Proof.
  induction l as [| x rest [Hex | Hno]].
  - right. intros b [].
  - left. destruct Hex as [b [Hin Hb]]. exists b. split; [right |]; assumption.
  - destruct (Z.eq_dec (data x) opaque) as [Heq | Hne].
    + left. exists x. split; [left; reflexivity | exact Heq].
    + right. intros b [<- | Hin]; auto.
Qed.

(** C7. [releaseRecordingFrame(opaque)]: when no outstanding buffer has
    payload pointer [opaque] the call returns and changes nothing; when
    some do, the first of them (and no other) is released once and erased
    from the list, everything else staying in place. *)
Theorem releaseRecordingFrame_first_match :
  forall (w : Sys) (opaque : ptr),
    let reg := mCameraMemoryTs (self w) in
    ((forall b, In b reg -> data b <> opaque) ->
     releaseRecordingFrame opaque w = Ok tt w) /\
    ((exists b, In b reg /\ data b = opaque) ->
     exists l1 it l2,
       reg = l1 ++ it :: l2 /\
       (forall b, In b l1 -> data b <> opaque) /\
       data it = opaque /\
       releaseRecordingFrame opaque w =
         Ok tt {| self := set_mCameraMemoryTs (l1 ++ l2) (self w);
                  trace := trace w ++ [EvRelease it] |}) /\
    (exists w', releaseRecordingFrame opaque w = Ok tt w' /\
       (length (mCameraMemoryTs (self w')) <= length reg
        <= length (mCameraMemoryTs (self w')) + 1)%nat /\
       (length (trace w') <= length (trace w) + 1)%nat).
Proof.
  intros w opaque reg. subst reg.
  unfold releaseRecordingFrame, bind, get_self, emit, modify_self, ret.
  split; [| split].
  - intros Hno. rewrite (release_first_none _ _ Hno). destruct w; reflexivity.
  - intros Hex.
    destruct (release_first_some _ _ Hex) as (l1 & it & l2 & Hl & Hno & Hit & Hrel).
    exists l1, it, l2. rewrite Hrel. simpl. auto.
  - destruct (registry_match_dec opaque (mCameraMemoryTs (self w))) as [Hex | Hno].
    + destruct (release_first_some _ _ Hex) as (l1 & it & l2 & Hl & _ & _ & Hrel).
      rewrite Hrel. simpl. eexists. split; [reflexivity |]. simpl.
      rewrite Hl, !length_app. simpl. lia.
    + rewrite (release_first_none _ _ Hno). eexists. split; [reflexivity |].
      lia.
Qed.

(** Witness of C7: two outstanding buffers share the payload pointer; one
    call releases and erases the first of them only. *)
Lemma releaseRecordingFrame_first_match_witness :
  releaseRecordingFrame 0x8000
    (start (set_mCameraMemoryTs
              [ {| mem_addr := 1; data := 0x9000; mem_size := 8 |};
                {| mem_addr := 2; data := 0x8000; mem_size := 8 |};
                {| mem_addr := 3; data := 0x8000; mem_size := 8 |} ]
              registered))
  = Ok tt
      {| self := set_mCameraMemoryTs
                   [ {| mem_addr := 1; data := 0x9000; mem_size := 8 |};
                     {| mem_addr := 3; data := 0x8000; mem_size := 8 |} ]
                   registered;
         trace := [EvRelease {| mem_addr := 2; data := 0x8000;
                                mem_size := 8 |}] |}.
Proof.
  pose (w := start (set_mCameraMemoryTs
              [ {| mem_addr := 1; data := 0x9000; mem_size := 8 |};
                {| mem_addr := 2; data := 0x8000; mem_size := 8 |};
                {| mem_addr := 3; data := 0x8000; mem_size := 8 |} ]
              registered)).
  destruct (releaseRecordingFrame_first_match w 0x8000) as [_ [Hsome _]].
  destruct Hsome as (l1 & it & l2 & Hl & Hno & Hit & Hrun).
  { exists {| mem_addr := 2; data := 0x8000; mem_size := 8 |}.
    split; [right; left; reflexivity | reflexivity]. }
  fold w. rewrite Hrun. clear Hrun.
  destruct l1 as [| x l1].
  { injection Hl as <- _. discriminate Hit. }
  injection Hl as <- Hl.
  destruct l1 as [| y l1].
  { injection Hl as <- <-. reflexivity. }
  injection Hl as <- Hl.
  exfalso. apply (Hno {| mem_addr := 2; data := 0x8000; mem_size := 8 |});
    [right; left; reflexivity | reflexivity].
Defined.

(** ** Video pacing *)

Lemma wrap64_in_range (z : Z) : in_int64 z -> wrap64 z = z.
Proof.
  unfold in_int64, wrap64, INT64_MIN, INT64_MAX. intros H.
  rewrite Z.mod_small; lia.
Qed.

Lemma isNewVideoFrameTime_fst (t : Z) (s : CallbackNotifier) :
  fst (isNewVideoFrameTime t s)
  = (mFrameRefreshFreq s <=? wrap64 (t - mLastFrameTimestamp s)).
Proof.
  unfold isNewVideoFrameTime.
  destruct (mFrameRefreshFreq s <=? _); reflexivity.
Qed.

Lemma isNewVideoFrameTime_snd (t : Z) (s : CallbackNotifier) :
  snd (isNewVideoFrameTime t s)
  = if fst (isNewVideoFrameTime t s) then set_mLastFrameTimestamp t s else s.
Proof.
  unfold isNewVideoFrameTime.
  destruct (mFrameRefreshFreq s <=? _); reflexivity.
Qed.

(** C3. The pacing test admits a timestamp exactly when
    [timestamp - mLastFrameTimestamp >= mFrameRefreshFreq] (the difference
    being representable in the 64-bit [nsecs_t]); it stores the timestamp
    as the last one exactly when it admits it and otherwise changes
    nothing. Hence, of two consecutive tests (in either order) on
    timestamps closer than the interval at most one is admitted, and a
    timestamp at least one interval after an admitted one is admitted. *)
Theorem isNewVideoFrameTime_admission :
  forall s : CallbackNotifier,
    in_int64 (mFrameRefreshFreq s) ->
    (forall t,
        in_int64 (t - mLastFrameTimestamp s) ->
        (fst (isNewVideoFrameTime t s) = true
         <-> t - mLastFrameTimestamp s >= mFrameRefreshFreq s) /\
        (fst (isNewVideoFrameTime t s) = true ->
         snd (isNewVideoFrameTime t s) = set_mLastFrameTimestamp t s /\
         mLastFrameTimestamp (snd (isNewVideoFrameTime t s)) = t /\
         mFrameRefreshFreq (snd (isNewVideoFrameTime t s))
           = mFrameRefreshFreq s) /\
        (fst (isNewVideoFrameTime t s) = false ->
         snd (isNewVideoFrameTime t s) = s)) /\
    (forall t1 t2,
        t1 < t2 -> t2 - t1 < mFrameRefreshFreq s ->
        both_admitted t1 t2 s = false /\ both_admitted t2 t1 s = false) /\
    (forall t1 t2,
        in_int64 (t2 - t1) ->
        fst (isNewVideoFrameTime t1 s) = true ->
        t2 - t1 >= mFrameRefreshFreq s ->
        fst (isNewVideoFrameTime t2 (snd (isNewVideoFrameTime t1 s))) = true).
Proof.
  intros s Hfreq. split; [| split].
  - intros t Hrep. rewrite isNewVideoFrameTime_snd, isNewVideoFrameTime_fst.
    rewrite (wrap64_in_range _ Hrep).
    destruct (Z.leb_spec (mFrameRefreshFreq s) (t - mLastFrameTimestamp s)).
    + repeat split; auto; try lia; discriminate.
    + repeat split; auto; try lia; try discriminate.
  - intros t1 t2 Hlt Hclose. unfold both_admitted.
    unfold in_int64, INT64_MIN, INT64_MAX in Hfreq.
    split.
    + destruct (fst (isNewVideoFrameTime t1 s)) eqn:H1; [| reflexivity].
      rewrite isNewVideoFrameTime_snd, H1, isNewVideoFrameTime_fst. simpl.
      rewrite wrap64_in_range
        by (unfold in_int64, INT64_MIN, INT64_MAX; lia).
      apply Z.leb_gt. lia.
    + destruct (fst (isNewVideoFrameTime t2 s)) eqn:H2; [| reflexivity].
      rewrite isNewVideoFrameTime_snd, H2, isNewVideoFrameTime_fst. simpl.
      rewrite wrap64_in_range
        by (unfold in_int64, INT64_MIN, INT64_MAX; lia).
      apply Z.leb_gt. lia.
  - intros t1 t2 Hrep H1 Hfar.
    rewrite isNewVideoFrameTime_snd, H1, isNewVideoFrameTime_fst. simpl.
    rewrite (wrap64_in_range _ Hrep). apply Z.leb_le. lia.
Qed.

(** Witness of C3: a state pacing at 30 frames per second. *)
Lemma isNewVideoFrameTime_admission_witness :
  fst (isNewVideoFrameTime 40000000
         (set_mFrameRefreshFreq 33333333 newCallbackNotifier)) = true
  <-> 40000000 - 0 >= 33333333.
Proof.
  pose proof (isNewVideoFrameTime_admission
                (set_mFrameRefreshFreq 33333333 newCallbackNotifier)) as H.
  assert (Hf : in_int64 (mFrameRefreshFreq
                (set_mFrameRefreshFreq 33333333 newCallbackNotifier))).
  { unfold in_int64, INT64_MIN, INT64_MAX. simpl. lia. }
  destruct (H Hf) as [Ht _].
  assert (Hr : in_int64 (40000000 - mLastFrameTimestamp
                (set_mFrameRefreshFreq 33333333 newCallbackNotifier))).
  { unfold in_int64, INT64_MIN, INT64_MAX. simpl. lia. }
  destruct (Ht 40000000 Hr) as [Hiff _]. exact Hiff.
Defined.

(** C5, as the code has it. For every [fps] other than 0, negative values
    included, [enableVideoRecording(fps)] returns NO_ERROR, marks
    recording active, resets the last timestamp to 0 and stores
    [1000000000 / fps] (truncating division) as the interval, leaving
    every other field of the object (mask, capture-intent flag,
    outstanding buffers, endpoints and context, JPEG quality, parameters)
    as it was; no invalid-argument status is returned. *)
Theorem enableVideoRecording_accepts_nonzero_fps :
  forall (fps : Z) (s : CallbackNotifier),
    fps <> 0 ->
    exists s',
      enableVideoRecording fps s = Ok NO_ERROR s' /\
      mVideoRecEnabled s' = true /\
      mLastFrameTimestamp s' = 0 /\
      mFrameRefreshFreq s' = Z.quot 1000000000 fps /\
      (0 < fps -> 0 <= mFrameRefreshFreq s' <= 1000000000 /\
                  fps * mFrameRefreshFreq s' <= 1000000000
                  < fps * (mFrameRefreshFreq s' + 1)) /\
      mMessageEnabler s' = mMessageEnabler s /\
      mTakingPicture s' = mTakingPicture s /\
      mCameraMemoryTs s' = mCameraMemoryTs s /\
      (mNotifyCB s', mDataCB s', mDataCBTimestamp s', mGetMemoryCB s',
       mCBOpaque s')
      = (mNotifyCB s, mDataCB s, mDataCBTimestamp s, mGetMemoryCB s,
         mCBOpaque s) /\
      mJpegQuality s' = mJpegQuality s /\
      mCameraParameters s' = mCameraParameters s.
Proof.
  intros fps s Hfps. unfold enableVideoRecording.
  destruct (Z.eqb_spec fps 0) as [| _]; [contradiction |].
  eexists. split; [reflexivity |]. simpl.
  repeat split; try reflexivity.
  - apply Z.quot_pos; lia.
  - rewrite Z.quot_div_nonneg by lia.
    apply Z.div_le_upper_bound; lia.
  - rewrite Z.quot_div_nonneg by lia.
    apply Z.mul_div_le; lia.
  - rewrite Z.quot_div_nonneg by lia.
    pose proof (Z.mul_succ_div_gt 1000000000 fps). lia.
Qed.

Lemma enableVideoRecording_accepts_nonzero_fps_witness :
  exists s',
    enableVideoRecording 30 newCallbackNotifier = Ok NO_ERROR s' /\
    mFrameRefreshFreq s' = 33333333.
Proof.
  destruct (enableVideoRecording_accepts_nonzero_fps 30 newCallbackNotifier)
    as (s' & Hrun & _ & _ & Hfreq & _); [lia |].
  exists s'. split; [exact Hrun | exact Hfreq].
Defined.

(** C5 as stated fails: a negative rate is accepted with NO_ERROR and
    overwrites the pacing state and the recording flag. *)
Lemma enableVideoRecording_negative_fps_not_rejected :
  -1 <= 0 /\
  enableVideoRecording (-1) newCallbackNotifier
  = Ok NO_ERROR
       (set_mFrameRefreshFreq (-1000000000)
          (set_mLastFrameTimestamp 0
             (set_mVideoRecEnabled true newCallbackNotifier))) /\
  ~ (exists st, st <> NO_ERROR /\
       enableVideoRecording (-1) newCallbackNotifier
       = Ok st newCallbackNotifier).
Proof.
  split; [lia |]. split; [reflexivity |].
  intros [st [Hst Hrun]]. apply Hst.
  vm_compute in Hrun. congruence.
Qed.

(** C4, as the code has it. After [enableVideoRecording(fps)] with
    [fps > 0] the last timestamp is 0, and the first frame, of timestamp
    [t], passes the pacing test if and only if [t >= 1000000000 / fps];
    recording at 30 frames per second with frames at 0, 10 ms and 40 ms,
    the video callback fires for the frame at 40 ms only. *)
Theorem first_frame_after_enableVideoRecording :
  forall (fps : Z) (s : CallbackNotifier) (t : Z),
    0 < fps -> in_int64 t ->
    (exists s',
        enableVideoRecording fps s = Ok NO_ERROR s' /\
        mLastFrameTimestamp s' = 0 /\
        (fst (isNewVideoFrameTime t s') = true
         <-> Z.quot 1000000000 fps <= t)) /\
    (exists s30 w,
        recording30 = Ok NO_ERROR s30 /\
        deliver_all good_host
          [frame_at 0; frame_at 10000000; frame_at 40000000] (start s30)
        = Ok tt w /\
        video_timestamps (trace w) = [40000000] /\
        length (mCameraMemoryTs (self w)) = 1%nat).
Proof.
  intros fps s t Hfps Ht. split.
  - unfold enableVideoRecording.
    destruct (Z.eqb_spec fps 0) as [| _]; [lia |].
    eexists. split; [reflexivity |]. split; [reflexivity |].
    rewrite isNewVideoFrameTime_fst. simpl.
    rewrite Z.sub_0_r, (wrap64_in_range _ Ht). apply Z.leb_le.
  - eexists. eexists. split; [reflexivity |].
    split; [vm_compute; reflexivity |]. split; reflexivity.
Qed.

Lemma first_frame_after_enableVideoRecording_witness :
  exists s',
    enableVideoRecording 30 newCallbackNotifier = Ok NO_ERROR s' /\
    mLastFrameTimestamp s' = 0 /\
    (fst (isNewVideoFrameTime 40000000 s') = true
     <-> Z.quot 1000000000 30 <= 40000000).
Proof.
  assert (Hpos : 0 < 30) by lia.
  assert (Hr : in_int64 40000000)
    by (unfold in_int64, INT64_MIN, INT64_MAX; lia).
  exact (proj1 (first_frame_after_enableVideoRecording
                  30 newCallbackNotifier 40000000 Hpos Hr)).
Defined.

(** C4 as stated fails: right after enabling at 30 frames per second a
    first frame with timestamp 0 is not admitted, and in the three-frame
    scenario the frame at 0 is not delivered. *)
Lemma first_frame_at_zero_not_admitted :
  exists s30,
    recording30 = Ok NO_ERROR s30 /\
    mLastFrameTimestamp s30 = 0 /\
    fst (isNewVideoFrameTime 0 s30) = false /\
    exists w,
      deliver_all good_host
        [frame_at 0; frame_at 10000000; frame_at 40000000] (start s30)
      = Ok tt w /\
      video_timestamps (trace w) <> [0; 40000000].
Proof.
  eexists. split; [reflexivity |]. split; [reflexivity |].
  split; [reflexivity |].
  eexists. split; [vm_compute; reflexivity |]. discriminate.
Qed.

(** ** Null endpoints *)

(** C6 does not hold of the code: only [onCameraDeviceError] tests the
    endpoint before calling it. With no endpoint registered,
    [autoFocusComplete] calls through the null notify pointer; a frame
    with the preview message enabled calls through the null allocator
    pointer; a frame that takes a picture with the shutter message enabled
    calls through the null notify pointer. *)
Theorem null_endpoints_are_called :
  autoFocusComplete (start newCallbackNotifier)
  = Crash (NullCall NotifyCB) (start newCallbackNotifier) /\
  deliver good_host (frame_at 0)
    (start (enableMessage CAMERA_MSG_PREVIEW_FRAME newCallbackNotifier))
  = Crash (NullCall GetMemoryCB)
      (start (enableMessage CAMERA_MSG_PREVIEW_FRAME newCallbackNotifier)) /\
  deliver good_host (frame_at 0)
    (start (setTakingPicture true
              (enableMessage CAMERA_MSG_SHUTTER newCallbackNotifier)))
  = Crash (NullCall NotifyCB)
      (start (enableMessage CAMERA_MSG_SHUTTER newCallbackNotifier)) /\
  onCameraDeviceError 1
    (start (enableMessage CAMERA_MSG_ERROR newCallbackNotifier))
  = Ok tt (start (enableMessage CAMERA_MSG_ERROR newCallbackNotifier)).
Proof.
  repeat split; vm_compute; reflexivity.
Qed.

(** ** Running the branches of the frame dispatch *)

Ltac exec :=
  unfold deliver, onNextFrameAvailable, videoFrameBranch, previewFrameBranch,
    takingPictureBranch, pictureCallbacks, compressedImageStep,
    video_frame_due, do_isNewVideoFrameTime, lift, call_get_memory,
    call_data_timestamp, call_data, call_notify, message_enabled, when,
    bind, ret, get_self, get_trace, emit, modify_self, crash;
  simpl.

Ltac registered_eqb H :=
  destruct H as (?Hn & ?Hd & ?Ht & ?Hg);
  match goal with
  | Hn : mNotifyCB _ <> NULL, Hd : mDataCB _ <> NULL,
    Ht : mDataCBTimestamp _ <> NULL, Hg : mGetMemoryCB _ <> NULL |- _ =>
      apply Z.eqb_neq in Hn, Hd, Ht, Hg
  end.

Lemma same_setup_refl (s : CallbackNotifier) : same_setup s s.
Proof. unfold same_setup. tauto. Qed.

Lemma same_setup_trans (s1 s2 s3 : CallbackNotifier) :
  same_setup s1 s2 -> same_setup s2 s3 -> same_setup s1 s3.
Proof. unfold same_setup. intuition congruence. Qed.

Lemma same_setup_registered (s s' : CallbackNotifier) :
  same_setup s s' -> all_registered s -> all_registered s'.
Proof. unfold same_setup, all_registered. intuition congruence. Qed.

Lemma same_setup_enabled (s s' : CallbackNotifier) (m : Z) :
  same_setup s s' -> isMessageEnabled m s' = isMessageEnabled m s.
Proof.
  unfold same_setup, isMessageEnabled. intros H.
  destruct H as (_ & _ & _ & _ & _ & -> & _). reflexivity.
Qed.

Lemma videoFrameBranch_run (host : Host) (f : Frame) (w : Sys) :
  all_registered (self w) ->
  exists w',
    videoFrameBranch host (frame_data f) (frame_timestamp f) (frame_dev f) w
    = Ok tt w' /\
    same_setup (self w) (self w') /\
    mTakingPicture (self w') = mTakingPicture (self w) /\
    mLastFrameTimestamp (self w')
    = (if video_due (frame_timestamp f) (self w) then frame_timestamp f
       else mLastFrameTimestamp (self w)) /\
    mCameraMemoryTs (self w')
    = mCameraMemoryTs (self w) ++
      video_registered f (self w)
        (request_memory host (trace w) (getFrameBufferSize (frame_dev f))) /\
    trace w'
    = trace w ++
      video_events f (self w)
        (request_memory host (trace w) (getFrameBufferSize (frame_dev f))).
Proof.
  destruct w as [s tr]. simpl. intros Hreg. registered_eqb Hreg.
  exec.
  unfold video_events, video_registered, video_due, isVideoRecordingEnabled,
    isNewVideoFrameTime.
  destruct (isMessageEnabled CAMERA_MSG_VIDEO_FRAME s); simpl;
    [destruct (mVideoRecEnabled s); simpl;
     [destruct (mFrameRefreshFreq s <=? _); simpl |] |].
  2-4: eexists; split; [reflexivity |]; unfold same_setup; simpl;
       rewrite !app_nil_r; tauto.
  rewrite Hg. simpl.
  destruct (usable _) as [b |]; simpl.
  - rewrite Ht. simpl. eexists. split; [reflexivity |].
    unfold same_setup. simpl. rewrite <- !app_assoc. simpl. tauto.
  - eexists. split; [reflexivity |]. unfold same_setup. simpl.
    rewrite !app_nil_r; tauto.
Qed.

Lemma previewFrameBranch_run (host : Host) (f : Frame) (w : Sys) :
  all_registered (self w) ->
  exists buff,
    previewFrameBranch host (frame_data f) (frame_dev f) w
    = Ok tt {| self := self w;
               trace := trace w ++ preview_events f (self w) buff |}.
Proof.
  destruct w as [s tr]. simpl. intros Hreg. registered_eqb Hreg.
  exec. unfold preview_events.
  destruct (isMessageEnabled CAMERA_MSG_PREVIEW_FRAME s); simpl.
  - rewrite Hg. simpl.
    exists (request_memory host tr (getFrameBufferSize (frame_dev f))).
    destruct (usable _) as [b |]; simpl.
    + rewrite Hd. simpl. rewrite <- !app_assoc. reflexivity.
    + reflexivity.
  - exists None. rewrite app_nil_r. reflexivity.
Qed.

Lemma takingPictureBranch_idle (host : Host) (f : Frame) (w : Sys) :
  mTakingPicture (self w) = false ->
  takingPictureBranch host (frame_data f) (frame_dev f) w = Ok tt w.
Proof.
  intros H. unfold takingPictureBranch, bind, get_self, when.
  rewrite H. reflexivity.
Qed.

Lemma takingPictureBranch_run (host : Host) (f : Frame) (w : Sys) :
  all_registered (self w) ->
  mTakingPicture (self w) = true ->
  exists buff,
    takingPictureBranch host (frame_data f) (frame_dev f) w
    = Ok tt {| self := set_mTakingPicture false (self w);
               trace := trace w ++ picture_events host f (self w) buff |}.
Proof.
  destruct w as [s tr]. simpl. intros Hreg Htaking. registered_eqb Hreg.
  exec. rewrite Htaking. simpl.
  unfold picture_events, compressed_image_events, thumbnail_events,
    jpeg_delivery_events, isMessageEnabled.
  simpl.
  destruct (negb (Z.land (mMessageEnabler s) CAMERA_MSG_SHUTTER =? 0));
    simpl; rewrite ?Hn; simpl;
  destruct (negb (Z.land (mMessageEnabler s) CAMERA_MSG_RAW_IMAGE_NOTIFY =? 0));
    simpl; rewrite ?Hn; simpl;
  (destruct (negb (Z.land (mMessageEnabler s) CAMERA_MSG_COMPRESSED_IMAGE =? 0));
    simpl;
   [| exists None; rewrite <- ?app_assoc, ?app_nil_r; reflexivity]);
  (destruct ((0 <? KEY_JPEG_THUMBNAIL_WIDTH (mCameraParameters s))
             && (0 <? KEY_JPEG_THUMBNAIL_HEIGHT (mCameraParameters s)));
   simpl;
   [destruct (createThumbnail host _ _ _ _ _ _ _); simpl |]);
  (destruct (compressRawImage host _ _ _ _ _ =? NO_ERROR); simpl;
   [rewrite Hg; simpl;
    match goal with
    | |- context [usable (request_memory host ?h ?sz)] =>
        exists (request_memory host h sz);
        destruct (usable (request_memory host h sz)); simpl;
        rewrite ?Hd; simpl
    end
   | exists None]);
  rewrite <- ?app_assoc; simpl; reflexivity.
Qed.

Lemma preview_events_same_setup (f : Frame) (s s' : CallbackNotifier) buff :
  same_setup s s' -> preview_events f s' buff = preview_events f s buff.
Proof.
  intros H. unfold preview_events. rewrite (same_setup_enabled _ _ _ H).
  destruct H as (_ & _ & _ & _ & -> & _). reflexivity.
Qed.

Lemma picture_events_same_setup (host : Host) (f : Frame)
      (s s' : CallbackNotifier) buff :
  same_setup s s' -> picture_events host f s' buff = picture_events host f s buff.
Proof.
  intros H. unfold picture_events, compressed_image_events, thumbnail_events.
  rewrite !(same_setup_enabled _ _ _ H).
  destruct H as (_ & _ & _ & _ & -> & _ & -> & -> & _). reflexivity.
Qed.

(** One frame, all endpoints registered: the dispatch returns, and its
    effect is the three branches' events in order, the pacing update, the
    appended video buffer and the cleared capture-intent flag. *)
Lemma deliver_run (host : Host) (f : Frame) (w : Sys) :
  all_registered (self w) ->
  exists w' bp bj,
    deliver host f w = Ok tt w' /\
    same_setup (self w) (self w') /\
    mTakingPicture (self w') = false /\
    mLastFrameTimestamp (self w')
    = (if video_due (frame_timestamp f) (self w) then frame_timestamp f
       else mLastFrameTimestamp (self w)) /\
    mCameraMemoryTs (self w')
    = mCameraMemoryTs (self w) ++
      video_registered f (self w)
        (request_memory host (trace w) (getFrameBufferSize (frame_dev f))) /\
    trace w'
    = trace w ++
      video_events f (self w)
        (request_memory host (trace w) (getFrameBufferSize (frame_dev f))) ++
      preview_events f (self w) bp ++
      (if mTakingPicture (self w) then picture_events host f (self w) bj
       else []).
Proof.
  intros Hreg.
  destruct (videoFrameBranch_run host f w Hreg)
    as (w1 & Hrun1 & Hsame1 & Htake1 & Hlast1 & Hmem1 & Htr1).
  pose proof (same_setup_registered _ _ Hsame1 Hreg) as Hreg1.
  destruct (previewFrameBranch_run host f w1 Hreg1) as (bp & Hrun2).
  rewrite (preview_events_same_setup _ _ _ _ Hsame1) in Hrun2.
  unfold deliver, onNextFrameAvailable, bind. rewrite Hrun1, Hrun2.
  destruct (mTakingPicture (self w)) eqn:Htaking.
  - edestruct (takingPictureBranch_run host f
                 {| self := self w1;
                    trace := trace w1 ++ preview_events f (self w) bp |})
      as (bj & Hrun3); [exact Hreg1 | simpl; congruence |].
    rewrite (picture_events_same_setup _ _ _ _ _ Hsame1) in Hrun3.
    simpl in Hrun3. rewrite Hrun3.
    eexists. exists bp, bj. split; [reflexivity |]. simpl.
    split; [destruct w1 as [s1 tr1]; unfold same_setup in *; simpl in *; tauto |].
    split; [reflexivity |].
    split; [exact Hlast1 |]. split; [exact Hmem1 |].
    rewrite Htr1, <- !app_assoc. reflexivity.
  - rewrite takingPictureBranch_idle by (simpl; congruence).
    eexists. exists bp, None. split; [reflexivity |]. simpl.
    split; [exact Hsame1 |]. split; [congruence |].
    split; [exact Hlast1 |]. split; [exact Hmem1 |].
    rewrite Htr1, <- !app_assoc, app_nil_r. reflexivity.
Qed.

(** ** Shapes of the emitted events *)

Lemma new_events_app (w w' : Sys) (evs : list event) :
  trace w' = trace w ++ evs -> new_events w w' = evs.
Proof. intros H. unfold new_events. rewrite H. apply drop_app_length. Qed.

Ltac case_events :=
  unfold video_events, preview_events, picture_events,
    compressed_image_events, thumbnail_events, jpeg_delivery_events;
  repeat match goal with
         | |- context [if ?c then _ else _] => destruct c
         | |- context [match usable ?b with _ => _ end] => destruct (usable b)
         end;
  simpl; try reflexivity.

Lemma video_events_no_picture (f : Frame) (s : CallbackNotifier) buff :
  List.filter is_picture_event (video_events f s buff) = [].
Proof. case_events. Qed.

Lemma preview_events_no_picture (f : Frame) (s : CallbackNotifier) buff :
  List.filter is_picture_event (preview_events f s buff) = [].
Proof. case_events. Qed.

Lemma preview_events_no_video (f : Frame) (s : CallbackNotifier) buff :
  forallb (fun e => negb (is_video_delivery e)) (preview_events f s buff)
  = true.
Proof. case_events. Qed.

Lemma picture_events_no_video (host : Host) (f : Frame)
      (s : CallbackNotifier) buff :
  forallb (fun e => negb (is_video_delivery e)) (picture_events host f s buff)
  = true.
Proof. case_events. Qed.

Lemma video_events_no_step (f : Frame) (s : CallbackNotifier) buff :
  List.filter is_picture_step (video_events f s buff) = [].
Proof. case_events. Qed.

Lemma preview_events_no_step (f : Frame) (s : CallbackNotifier) buff :
  List.filter is_picture_step (preview_events f s buff) = [].
Proof. case_events. Qed.

Lemma picture_events_steps (host : Host) (f : Frame)
      (s : CallbackNotifier) buff :
  List.filter is_picture_step (picture_events host f s buff)
  = (if isMessageEnabled CAMERA_MSG_SHUTTER s
     then [EvNotify CAMERA_MSG_SHUTTER 0 0 (mCBOpaque s)] else []) ++
    (if isMessageEnabled CAMERA_MSG_RAW_IMAGE_NOTIFY s
     then [EvNotify CAMERA_MSG_RAW_IMAGE_NOTIFY 0 0 (mCBOpaque s)] else []) ++
    (if isMessageEnabled CAMERA_MSG_COMPRESSED_IMAGE s
     then [EvCompress (frame_data f) (getFrameWidth (frame_dev f))
             (getFrameHeight (frame_dev f)) (mJpegQuality s)
             (createExifData host (mCameraParameters s))]
     else []).
Proof. case_events. Qed.

Lemma exif_free_events (p : event -> bool) (f : Frame) (s : CallbackNotifier)
      buff :
  (forall e, p e = true -> is_picture_event e = true) ->
  List.filter p (video_events f s buff) = [] /\
  List.filter p (preview_events f s buff) = [].
Proof.
  intros Hp.
  assert (Hnone : forall l, List.filter is_picture_event l = [] ->
                            List.filter p l = []).
  { induction l as [| e l IH]; simpl; [reflexivity |].
    destruct (is_picture_event e) eqn:He; [discriminate |].
    intros Hl. destruct (p e) eqn:Hpe.
    - rewrite (Hp e Hpe) in He. discriminate.
    - apply IH. exact Hl. }
  split; apply Hnone;
    [apply video_events_no_picture | apply preview_events_no_picture].
Qed.

(** ** The video-frame branch *)

(** C2. With the endpoints registered, a frame is handed to the video
    path exactly when the video-frame message is enabled, recording is
    active and the pacing test admits the timestamp. Then one buffer of
    the device's frame-buffer size is requested; if a usable buffer comes
    back the frame is copied into it, the timestamped-data callback is
    invoked with CAMERA_MSG_VIDEO_FRAME and the buffer is appended to the
    outstanding list; if not, nothing more happens in this branch and the
    list is unchanged. Nothing else the frame does ([rest]) delivers a
    video frame. *)
Theorem onNextFrameAvailable_video_branch :
  forall (host : Host) (f : Frame) (w : Sys),
    all_registered (self w) ->
    let s := self w in
    let size := getFrameBufferSize (frame_dev f) in
    let due := isMessageEnabled CAMERA_MSG_VIDEO_FRAME s
               && isVideoRecordingEnabled s
               && fst (isNewVideoFrameTime (frame_timestamp f) s) in
    exists w' rest,
      onNextFrameAvailable host (frame_data f) (frame_timestamp f)
                           (frame_dev f) w = Ok tt w' /\
      forallb (fun e => negb (is_video_delivery e)) rest = true /\
      match due, usable (request_memory host (trace w) size) with
      | true, Some b =>
          trace w' = trace w ++
            [EvGetMemory (-1) size 1 NULL;
             EvMemcpy (data b) (frame_data f) size;
             EvDataTimestamp (frame_timestamp f) CAMERA_MSG_VIDEO_FRAME b 0
                             (mCBOpaque s)] ++ rest /\
          mCameraMemoryTs (self w') = mCameraMemoryTs s ++ [b]
      | true, None =>
          trace w' = trace w ++ [EvGetMemory (-1) size 1 NULL] ++ rest /\
          mCameraMemoryTs (self w') = mCameraMemoryTs s
      | false, _ =>
          trace w' = trace w ++ rest /\
          mCameraMemoryTs (self w') = mCameraMemoryTs s
      end.
Proof.
  intros host f w Hreg s size due.
  destruct (deliver_run host f w Hreg)
    as (w' & bp & bj & Hrun & _ & _ & _ & Hmem & Htr).
  exists w'.
  exists (preview_events f s bp ++
          (if mTakingPicture s then picture_events host f s bj else [])).
  split; [exact Hrun |].
  split.
  { rewrite forallb_app, preview_events_no_video. simpl.
    destruct (mTakingPicture s); [apply picture_events_no_video | reflexivity]. }
  fold s in Hmem, Htr. fold size in Hmem, Htr.
  unfold video_events, video_registered, video_due in Hmem, Htr.
  fold due in Hmem, Htr.
  destruct due; [destruct (usable (request_memory host (trace w) size)) |];
    simpl in *; rewrite ?app_nil_r in Hmem; auto.
Qed.

Lemma onNextFrameAvailable_video_branch_witness :
  exists w',
    onNextFrameAvailable good_host 0x7000 40000000 vga
      (start (set_mFrameRefreshFreq 33333333
                (set_mVideoRecEnabled true
                   (enableMessage CAMERA_MSG_VIDEO_FRAME registered))))
    = Ok tt w' /\
    length (mCameraMemoryTs (self w')) = 1%nat.
Proof.
  assert (Hreg : all_registered
            (self (start (set_mFrameRefreshFreq 33333333
                     (set_mVideoRecEnabled true
                        (enableMessage CAMERA_MSG_VIDEO_FRAME registered)))))).
  { unfold all_registered, NULL. simpl. repeat split; discriminate. }
  destruct (onNextFrameAvailable_video_branch good_host (frame_at 40000000)
              _ Hreg) as (w' & rest & Hrun & _ & Hshape).
  exists w'. split; [exact Hrun |].
  simpl in Hshape. destruct Hshape as [_ Hmem]. rewrite Hmem. reflexivity.
Defined.

(** When the allocator fails, the admitted frame costs one request and
    nothing is delivered or registered. *)
Example video_frame_allocation_failure :
  exists w',
    deliver oom_host (frame_at 40000000)
      (start (set_mFrameRefreshFreq 33333333
                (set_mVideoRecEnabled true
                   (enableMessage CAMERA_MSG_VIDEO_FRAME registered))))
    = Ok tt w' /\
    trace w' = [EvGetMemory (-1) 460800 1 NULL] /\
    mCameraMemoryTs (self w') = [] /\
    mLastFrameTimestamp (self w') = 40000000.
Proof.
  eexists. split; [vm_compute; reflexivity |]. repeat split.
Qed.

(** ** Picture taking *)

(** C8. With the endpoints registered, a frame that takes a picture with
    the compressed-image message enabled builds the EXIF data once and
    frees that same handle once, as the last action of the frame, on each
    of the three ways the step can end: compression failed, compression
    succeeded but no usable buffer was allocated, compression succeeded and
    the image was delivered. Whether or not a thumbnail was requested, and
    whatever [createThumbnail] answered, the compression is attempted. *)
Theorem exif_data_freed_once :
  forall (host : Host) (f : Frame) (w : Sys),
    all_registered (self w) ->
    mTakingPicture (self w) = true ->
    isMessageEnabled CAMERA_MSG_COMPRESSED_IMAGE (self w) = true ->
    let s := self w in
    let exif := createExifData host (mCameraParameters s) in
    let width := getFrameWidth (frame_dev f) in
    let height := getFrameHeight (frame_dev f) in
    let res := compressRawImage host (frame_data f) width height
                                (mJpegQuality s) exif in
    let size := getCompressedSize host (frame_data f) width height
                                  (mJpegQuality s) exif in
    exists w' before thumb delivery,
      onNextFrameAvailable host (frame_data f) (frame_timestamp f)
                           (frame_dev f) w = Ok tt w' /\
      trace w' = trace w ++ before ++
                 EvCreateExif exif :: thumb ++
                 EvCompress (frame_data f) width height (mJpegQuality s) exif
                 :: delivery ++ [EvFreeExif exif] /\
      count is_exif_create (new_events w w') = 1%nat /\
      count is_exif_free (new_events w w') = 1%nat /\
      count is_compress (new_events w w') = 1%nat /\
      (thumb = [] \/
       thumb = [EvCreateThumbnail (frame_data f) width height
                  (KEY_JPEG_THUMBNAIL_WIDTH (mCameraParameters s))
                  (KEY_JPEG_THUMBNAIL_HEIGHT (mCameraParameters s))
                  (mJpegQuality s) exif]) /\
      ((res <> NO_ERROR /\ delivery = []) \/
       (res = NO_ERROR /\ delivery = [EvGetMemory (-1) size 1 NULL]) \/
       (res = NO_ERROR /\
        exists b, delivery = [EvGetMemory (-1) size 1 NULL;
                              EvGetCompressedImage (data b);
                              EvData CAMERA_MSG_COMPRESSED_IMAGE b 0 NULL
                                     (mCBOpaque s);
                              EvRelease b])).
Proof.
  intros host f w Hreg Htaking Hjpeg s exif width height res size.
  destruct (deliver_run host f w Hreg)
    as (w' & bp & bj & Hrun & _ & _ & _ & _ & Htr).
  rewrite Htaking in Htr. fold s in Htr, Hjpeg.
  set (bv := request_memory host (trace w) (getFrameBufferSize (frame_dev f)))
    in Htr.
  assert (Hpre : forall p, (forall e, p e = true -> is_picture_event e = true) ->
            List.filter p (video_events f s bv ++ preview_events f s bp ++
               (if isMessageEnabled CAMERA_MSG_SHUTTER s
                then [EvNotify CAMERA_MSG_SHUTTER 0 0 (mCBOpaque s)] else []) ++
               (if isMessageEnabled CAMERA_MSG_RAW_IMAGE_NOTIFY s
                then [EvNotify CAMERA_MSG_RAW_IMAGE_NOTIFY 0 0 (mCBOpaque s)]
                else []))
            = List.filter p
               ((if isMessageEnabled CAMERA_MSG_SHUTTER s
                 then [EvNotify CAMERA_MSG_SHUTTER 0 0 (mCBOpaque s)] else []) ++
                (if isMessageEnabled CAMERA_MSG_RAW_IMAGE_NOTIFY s
                 then [EvNotify CAMERA_MSG_RAW_IMAGE_NOTIFY 0 0 (mCBOpaque s)]
                 else []))).
  { intros p Hp. destruct (exif_free_events p f s bv Hp) as [Hv _].
    destruct (exif_free_events p f s bp Hp) as [_ Hpv].
    rewrite !List.filter_app, Hv, Hpv. reflexivity. }
  exists w'.
  exists (video_events f s bv ++ preview_events f s bp ++
          (if isMessageEnabled CAMERA_MSG_SHUTTER s
           then [EvNotify CAMERA_MSG_SHUTTER 0 0 (mCBOpaque s)] else []) ++
          (if isMessageEnabled CAMERA_MSG_RAW_IMAGE_NOTIFY s
           then [EvNotify CAMERA_MSG_RAW_IMAGE_NOTIFY 0 0 (mCBOpaque s)]
           else [])).
  exists (thumbnail_events f s exif).
  exists (jpeg_delivery_events res size bj (mCBOpaque s)).
  assert (Htr' : trace w' = trace w ++
            (video_events f s bv ++ preview_events f s bp ++
             (if isMessageEnabled CAMERA_MSG_SHUTTER s
              then [EvNotify CAMERA_MSG_SHUTTER 0 0 (mCBOpaque s)] else []) ++
             (if isMessageEnabled CAMERA_MSG_RAW_IMAGE_NOTIFY s
              then [EvNotify CAMERA_MSG_RAW_IMAGE_NOTIFY 0 0 (mCBOpaque s)]
              else [])) ++
            EvCreateExif exif :: thumbnail_events f s exif ++
            EvCompress (frame_data f) width height (mJpegQuality s) exif
            :: jpeg_delivery_events res size bj (mCBOpaque s) ++
            [EvFreeExif exif]).
  { rewrite Htr. unfold picture_events. rewrite Hjpeg.
    unfold compressed_image_events. fold exif width height res size.
    rewrite <- !app_assoc. reflexivity. }
  split; [exact Hrun |]. split; [exact Htr' |].
  rewrite (new_events_app _ _ _ Htr'). unfold count.
  rewrite !(List.filter_app _ (_ ++ _ ++ _ ++ _)).
  rewrite !Hpre by (intros [] He; simpl in *; congruence).
  split; [| split; [| split; [| split]]].
  - unfold thumbnail_events, jpeg_delivery_events.
    repeat match goal with
           | |- context [if ?c then _ else _] => destruct c
           | |- context [match usable ?b with _ => _ end] => destruct (usable b)
           end; reflexivity.
  - unfold thumbnail_events, jpeg_delivery_events.
    repeat match goal with
           | |- context [if ?c then _ else _] => destruct c
           | |- context [match usable ?b with _ => _ end] => destruct (usable b)
           end; reflexivity.
  - unfold thumbnail_events, jpeg_delivery_events.
    repeat match goal with
           | |- context [if ?c then _ else _] => destruct c
           | |- context [match usable ?b with _ => _ end] => destruct (usable b)
           end; reflexivity.
  - unfold thumbnail_events.
    destruct (_ && _); [right | left]; reflexivity.
  - unfold jpeg_delivery_events.
    destruct (Z.eqb_spec res NO_ERROR) as [Hres | Hres].
    + right. destruct (usable bj) as [b |].
      * right. split; [exact Hres |]. exists b. reflexivity.
      * left. split; [exact Hres | reflexivity].
    + left. split; [exact Hres | reflexivity].
Qed.

Lemma exif_data_freed_once_witness :
  exists w',
    onNextFrameAvailable bad_jpeg_host 0x7000 0 vga
      (start (setTakingPicture true
                (enableMessage CAMERA_MSG_COMPRESSED_IMAGE registered)))
    = Ok tt w' /\
    count is_exif_create (trace w') = 1%nat /\
    count is_exif_free (trace w') = 1%nat.
Proof.
  assert (Hreg : all_registered
            (self (start (setTakingPicture true
                     (enableMessage CAMERA_MSG_COMPRESSED_IMAGE registered))))).
  { unfold all_registered, NULL. simpl. repeat split; discriminate. }
  destruct (exif_data_freed_once bad_jpeg_host (frame_at 0) _ Hreg
              eq_refl eq_refl)
    as (w' & before & thumb & delivery & Hrun & _ & Hc & Hf & _).
  exists w'. split; [exact Hrun |].
  unfold new_events in Hc, Hf. simpl in Hc, Hf. rewrite drop_0 in Hc, Hf.
  split; assumption.
Defined.

Lemma deliver_all_idle (host : Host) (fs : list Frame) :
  forall w : Sys,
    all_registered (self w) ->
    mTakingPicture (self w) = false ->
    exists w' evs,
      deliver_all host fs w = Ok tt w' /\
      same_setup (self w) (self w') /\
      mTakingPicture (self w') = false /\
      trace w' = trace w ++ evs /\
      List.filter is_picture_event evs = [].
Proof.
  induction fs as [| f fs IH]; intros w Hreg Hidle.
  - exists w, []. simpl. unfold ret. rewrite app_nil_r.
    auto using same_setup_refl.
  - destruct (deliver_run host f w Hreg)
      as (w1 & bp & bj & Hrun & Hsame & Htake & _ & _ & Htr).
    rewrite Hidle, app_nil_r in Htr.
    destruct (IH w1 (same_setup_registered _ _ Hsame Hreg) Htake)
      as (w' & evs & Hrun' & Hsame' & Htake' & Htr' & Hnone).
    exists w'. eexists. simpl. unfold bind. rewrite Hrun.
    split; [exact Hrun' |].
    split; [exact (same_setup_trans _ _ _ Hsame Hsame') |].
    split; [exact Htake' |].
    split; [rewrite Htr', Htr, <- !app_assoc; reflexivity |].
    rewrite !List.filter_app, video_events_no_picture,
      preview_events_no_picture, Hnone. reflexivity.
Qed.

Lemma takingPictureBranch_run_exact (host : Host) (f : Frame) (w : Sys) :
  all_registered (self w) ->
  mTakingPicture (self w) = true ->
  takingPictureBranch host (frame_data f) (frame_dev f) w
  = Ok tt {| self := set_mTakingPicture false (self w);
             trace := trace w ++
                      picture_events host f (self w)
                        (picture_buffer host f (self w) (trace w)) |}.
Proof.
  destruct w as [s tr]. simpl. intros Hreg Htaking. registered_eqb Hreg.
  exec. rewrite Htaking. simpl.
  unfold picture_buffer, picture_prefix, picture_events,
    compressed_image_events, thumbnail_events, jpeg_delivery_events,
    isMessageEnabled.
  simpl.
  destruct (negb (Z.land (mMessageEnabler s) CAMERA_MSG_SHUTTER =? 0));
    simpl; rewrite ?Hn; simpl;
  destruct (negb (Z.land (mMessageEnabler s) CAMERA_MSG_RAW_IMAGE_NOTIFY =? 0));
    simpl; rewrite ?Hn; simpl;
  (destruct (negb (Z.land (mMessageEnabler s) CAMERA_MSG_COMPRESSED_IMAGE =? 0));
    simpl;
   [| rewrite <- ?app_assoc, ?app_nil_r; reflexivity]);
  (destruct ((0 <? KEY_JPEG_THUMBNAIL_WIDTH (mCameraParameters s))
             && (0 <? KEY_JPEG_THUMBNAIL_HEIGHT (mCameraParameters s)));
   simpl;
   [destruct (createThumbnail host _ _ _ _ _ _ _); simpl |]);
  (destruct (compressRawImage host _ _ _ _ _ =? NO_ERROR); simpl;
   [rewrite Hg; simpl; rewrite <- ?app_assoc; simpl;
    match goal with
    | |- context [usable (request_memory host ?h ?sz)] =>
        destruct (usable (request_memory host h sz)); simpl;
        rewrite ?Hd; simpl
    end
   | ]);
  rewrite <- ?app_assoc; simpl; reflexivity.
Qed.

Lemma picture_buffer_same_setup (host : Host) (f : Frame)
      (s s' : CallbackNotifier) (hist : list event) :
  same_setup s s' ->
  picture_buffer host f s' hist = picture_buffer host f s hist.
Proof.
  intros H. unfold picture_buffer, picture_prefix, thumbnail_events.
  rewrite !(same_setup_enabled _ _ _ H).
  destruct H as (_ & _ & _ & _ & -> & _ & -> & -> & _). reflexivity.
Qed.

(** A frame that takes a picture, with the allocator's answer to the
    request for the JPEG buffer made explicit. *)
Lemma deliver_run_exact (host : Host) (f : Frame) (w : Sys) :
  all_registered (self w) ->
  mTakingPicture (self w) = true ->
  exists w' before,
    deliver host f w = Ok tt w' /\
    List.filter is_picture_event before = [] /\
    trace w'
    = trace w ++ before ++
      picture_events host f (self w)
        (picture_buffer host f (self w) (trace w ++ before)).
Proof.
  intros Hreg Htaking.
  destruct (videoFrameBranch_run host f w Hreg)
    as (w1 & Hrun1 & Hsame1 & Htake1 & _ & _ & Htr1).
  pose proof (same_setup_registered _ _ Hsame1 Hreg) as Hreg1.
  destruct (previewFrameBranch_run host f w1 Hreg1) as (bp & Hrun2).
  rewrite (preview_events_same_setup _ _ _ _ Hsame1) in Hrun2.
  pose proof (takingPictureBranch_run_exact host f
                {| self := self w1;
                   trace := trace w1 ++ preview_events f (self w) bp |}
                Hreg1) as Hrun3.
  simpl in Hrun3.
  rewrite (picture_events_same_setup _ _ _ _ _ Hsame1),
    (picture_buffer_same_setup _ _ _ _ _ Hsame1) in Hrun3.
  specialize (Hrun3 ltac:(congruence)).
  unfold deliver, onNextFrameAvailable, bind. rewrite Hrun1, Hrun2, Hrun3.
  eexists.
  exists (video_events f (self w)
            (request_memory host (trace w)
               (getFrameBufferSize (frame_dev f)))
          ++ preview_events f (self w) bp).
  split; [reflexivity |].
  split.
  - rewrite List.filter_app, video_events_no_picture,
      preview_events_no_picture. reflexivity.
  - simpl. rewrite Htr1, <- !app_assoc. reflexivity.
Qed.

(** C1. After the still-capture request has set the capture-intent flag,
    and with the endpoints registered, every run of one or more frames
    returns; the first frame clears the flag and performs the
    picture-taking sequence once, in this order, as far as each message is
    enabled: shutter notification, raw-image notification, then EXIF
    creation, optional thumbnail, compression and, when the compression
    succeeded and the allocator returned a usable buffer, the data
    callback with CAMERA_MSG_COMPRESSED_IMAGE on that buffer, followed by
    its release; the EXIF data is freed last. None of the later frames
    performs any action of the picture-taking sequence, and the flag is
    false in the end. *)
Theorem picture_taken_on_first_frame_only :
  forall (host : Host) (s : CallbackNotifier) (tr : list event)
         (f : Frame) (fs : list Frame),
    all_registered s ->
    let w0 := {| self := setTakingPicture true s; trace := tr |} in
    let exif := createExifData host (mCameraParameters s) in
    let width := getFrameWidth (frame_dev f) in
    let height := getFrameHeight (frame_dev f) in
    let res := compressRawImage host (frame_data f) width height
                                (mJpegQuality s) exif in
    let size := getCompressedSize host (frame_data f) width height
                                  (mJpegQuality s) exif in
    let notifications :=
      (if isMessageEnabled CAMERA_MSG_SHUTTER s
       then [EvNotify CAMERA_MSG_SHUTTER 0 0 (mCBOpaque s)] else []) ++
      (if isMessageEnabled CAMERA_MSG_RAW_IMAGE_NOTIFY s
       then [EvNotify CAMERA_MSG_RAW_IMAGE_NOTIFY 0 0 (mCBOpaque s)]
       else []) in
    exists w1 wN,
      deliver host f w0 = Ok tt w1 /\
      deliver_all host fs w1 = Ok tt wN /\
      deliver_all host (f :: fs) w0 = Ok tt wN /\
      mTakingPicture (self w0) = true /\
      mTakingPicture (self w1) = false /\
      mTakingPicture (self wN) = false /\
      List.filter is_picture_step (new_events w0 w1)
      = (if isMessageEnabled CAMERA_MSG_SHUTTER s
         then [EvNotify CAMERA_MSG_SHUTTER 0 0 (mCBOpaque s)] else []) ++
        (if isMessageEnabled CAMERA_MSG_RAW_IMAGE_NOTIFY s
         then [EvNotify CAMERA_MSG_RAW_IMAGE_NOTIFY 0 0 (mCBOpaque s)]
         else []) ++
        (if isMessageEnabled CAMERA_MSG_COMPRESSED_IMAGE s
         then [EvCompress (frame_data f) (getFrameWidth (frame_dev f))
                 (getFrameHeight (frame_dev f)) (mJpegQuality s)
                 (createExifData host (mCameraParameters s))]
         else []) /\
      List.filter is_picture_event (new_events w1 wN) = [] /\
      (exists before,
          List.filter is_picture_event before = [] /\
          if isMessageEnabled CAMERA_MSG_COMPRESSED_IMAGE s then
            let started :=
              before ++ notifications ++
              EvCreateExif exif :: thumbnail_events f s exif ++
              [EvCompress (frame_data f) width height (mJpegQuality s) exif]
            in
            new_events w0 w1
            = started ++
              (if res =? NO_ERROR then
                 EvGetMemory (-1) size 1 NULL ::
                 match usable (request_memory host (tr ++ started) size) with
                 | Some b =>
                     [EvGetCompressedImage (data b);
                      EvData CAMERA_MSG_COMPRESSED_IMAGE b 0 NULL
                             (mCBOpaque s);
                      EvRelease b]
                 | None => []
                 end
               else []) ++
              [EvFreeExif exif]
          else new_events w0 w1 = before ++ notifications).
Proof.
  intros host s tr f fs Hreg w0 exif width height res size notifications.
  assert (Hreg0 : all_registered (self w0)) by exact Hreg.
  destruct (deliver_run host f w0 Hreg0)
    as (w1 & bp & bj & Hrun & Hsame & Htake & _ & _ & Htr).
  destruct (deliver_all_idle host fs w1
              (same_setup_registered _ _ Hsame Hreg0) Htake)
    as (wN & evs & HrunN & _ & HtakeN & HtrN & Hnone).
  exists w1, wN.
  split; [exact Hrun |]. split; [exact HrunN |].
  split; [simpl; unfold bind; rewrite Hrun; exact HrunN |].
  split; [reflexivity |]. split; [exact Htake |]. split; [exact HtakeN |].
  split; [| split].
  - rewrite (new_events_app _ _ _ Htr). simpl.
    rewrite !List.filter_app, video_events_no_step, preview_events_no_step.
    simpl. exact (picture_events_steps host f (self w0) bj).
  - rewrite (new_events_app _ _ _ HtrN). exact Hnone.
  - destruct (deliver_run_exact host f w0 Hreg0 eq_refl)
      as (w1' & before & Hrun' & Hbefore & Htr').
    rewrite Hrun in Hrun'. injection Hrun' as <-.
    exists before. split; [exact Hbefore |].
    rewrite (new_events_app _ _ _ Htr').
    unfold picture_events, picture_buffer, picture_prefix,
      compressed_image_events, jpeg_delivery_events.
    change (isMessageEnabled CAMERA_MSG_COMPRESSED_IMAGE (self w0))
      with (isMessageEnabled CAMERA_MSG_COMPRESSED_IMAGE s).
    destruct (isMessageEnabled CAMERA_MSG_COMPRESSED_IMAGE s).
    + simpl. fold exif width height res size. unfold notifications.
      rewrite <- !app_assoc. simpl. rewrite <- !app_assoc. reflexivity.
    + simpl. unfold notifications. rewrite app_nil_r. reflexivity.
Qed.

Lemma picture_taken_on_first_frame_only_witness :
  exists w1 wN,
    deliver good_host (frame_at 0)
      (start (setTakingPicture true (enableMessage 0x302 registered)))
    = Ok tt w1 /\
    deliver_all good_host [frame_at 10; frame_at 20] w1 = Ok tt wN /\
    count is_picture_step (trace w1) = 3%nat /\
    count is_picture_step (trace wN) = 3%nat /\
    length (data_buffers (trace w1)) = 1%nat /\
    length (data_buffers (trace wN)) = 1%nat.
Proof.
  assert (Hreg : all_registered (enableMessage 0x302 registered)).
  { unfold all_registered, NULL. simpl. repeat split; discriminate. }
  destruct (picture_taken_on_first_frame_only good_host
              (enableMessage 0x302 registered) []
              (frame_at 0) [frame_at 10; frame_at 20] Hreg)
    as (w1 & wN & Hrun & HrunN & _ & _ & _ & _ & _ & _).
  exists w1, wN. split; [exact Hrun |]. split; [exact HrunN |].
  vm_compute in Hrun. injection Hrun as <-.
  vm_compute in HrunN. injection HrunN as <-.
  repeat split; reflexivity.
Defined.

(** ** Message strings *)

Lemma land_1_testbit (msg : Z) :
  (Z.land msg 1 =? 0) = negb (Z.testbit msg 0).
Proof.
  change 1 with (Z.ones 1). rewrite Z.land_ones by lia.
  change (2 ^ 1) with 2. rewrite <- Z.bit0_mod.
  destruct (Z.testbit msg 0); reflexivity.
Qed.

Lemma names_from_filter (n : nat) :
  forall (msg : Z) (i : nat),
    names_from n msg i
    = map (fun k => nth k lCameraMessages EmptyString)
          (List.filter (fun k => Z.testbit msg (Z.of_nat k - Z.of_nat i))
                       (seq i n)).
Proof.
  induction n as [| n IH]; intros msg i; [reflexivity |].
  cbn [names_from seq List.filter]. rewrite Z.sub_diag. rewrite IH.
  assert (Htail :
    List.filter (fun k => Z.testbit (Z.shiftr msg 1)
                            (Z.of_nat k - Z.of_nat (S i))) (seq (S i) n)
    = List.filter (fun k => Z.testbit msg (Z.of_nat k - Z.of_nat i))
                  (seq (S i) n)).
  { apply List.filter_ext_in. intros k Hk. apply in_seq in Hk.
    rewrite Z.shiftr_spec by lia. f_equal. lia. }
  rewrite Htail. destruct (Z.testbit msg 0); reflexivity.
Qed.

Lemma names_from_message_names (msg : Z) :
  names_from (length lCameraMessages) msg 0 = message_names msg.
Proof.
  rewrite names_from_filter. unfold message_names.
  rewrite (List.filter_ext
             (fun k => Z.testbit msg (Z.of_nat k - Z.of_nat 0))
             (fun k => Z.testbit msg (Z.of_nat k)));
    [reflexivity |].
  intros k. f_equal. lia.
Qed.

Lemma names_from_zero (n : nat) : forall i, names_from n 0 i = [].
Proof.
  induction n as [| n IH]; intros i; [reflexivity |].
  simpl. rewrite Z.shiftr_0_l. apply IH.
Qed.

Lemma skip_clear_bits_names (msg index : Z) :
  forall i n : nat,
    index = Z.of_nat i -> (i + n = 11)%nat ->
    exists j : nat,
      (j <= n)%nat /\
      snd (skip_clear_bits msg index) = Z.of_nat (i + j) /\
      names_from n msg i
      = names_from (n - j) (fst (skip_clear_bits msg index)) (i + j) /\
      (Z.testbit (fst (skip_clear_bits msg index)) 0 = true \/ j = n).
Proof.
  funelim (skip_clear_bits msg index); intros i k Hi Hk;
    rewrite <- ?Heqcall; cbn [fst snd].
  - (* the low bit is set *)
    exists 0%nat. rewrite Nat.add_0_r, Nat.sub_0_r.
    split; [lia |]. split; [assumption |]. split; [reflexivity | left].
    pose proof (land_1_testbit msg) as Hb.
    destruct (Z.eqb_spec (Z.land msg 1) 0); [contradiction |].
    destruct (Z.testbit msg 0); [reflexivity | discriminate].
  - (* a clear bit is skipped *)
    change lCameraMessagesNum with 11 in *.
    destruct k as [| k]; [lia |].
    match goal with
    | IH : forall i n : nat, _ -> _ -> exists _, _ |- _ =>
        destruct (IH (S i) k) as (j & Hj & Hsnd & Hnames & Hex); [lia | lia |]
    end.
    exists (S j). rewrite Hsnd.
    replace (i + S j)%nat with (S i + j)%nat by lia.
    split; [lia |]. split; [reflexivity |].
    split; [| destruct Hex; [left; assumption | right; lia]].
    cbn [names_from Nat.sub]. rewrite <- Hnames.
    pose proof (land_1_testbit msg) as Hb.
    match goal with H : Z.land msg 1 = 0 |- _ => rewrite H in Hb end.
    cbn [Z.eqb] in Hb. destruct (Z.testbit msg 0); [discriminate | reflexivity].
  - (* the table is exhausted *)
    change lCameraMessagesNum with 11 in *.
    exists 0%nat. rewrite Nat.add_0_r, Nat.sub_0_r.
    split; [lia |]. split; [assumption |]. split; [reflexivity | right; lia].
Qed.

Lemma GetMessageStrings_loop_spec (msg : Z) (strings : list string)
      (max' index out : Z) :
  forall i o n : nat,
    index = Z.of_nat i -> out = Z.of_nat o -> (i + n = 11)%nat ->
    Z.of_nat o <= max' -> max' <= Z.of_nat (length strings) ->
    GetMessageStrings_loop msg strings max' index out
    = (Z.of_nat (o + Nat.min (Z.to_nat (max' - Z.of_nat o))
                             (length (names_from n msg i))),
       take o strings
       ++ take (Nat.min (Z.to_nat (max' - Z.of_nat o))
                        (length (names_from n msg i)))
               (names_from n msg i)
       ++ drop (o + Nat.min (Z.to_nat (max' - Z.of_nat o))
                            (length (names_from n msg i)))
               strings).
Proof.
  funelim (GetMessageStrings_loop msg strings max' index out);
    intros i o k Hi Ho Hk Hle Hcap; rewrite <- ?Heqcall.
  all: try clear Heqcall.
  all: repeat match goal with
              | H : _ = left _ |- _ => clear H
              | H : _ = right _ |- _ => clear H
              | H : inspect _ = _ |- _ => clear H
              end.
  - (* the loop condition fails *)
    apply not_true_is_false in n.
    change lCameraMessagesNum with 11 in *.
    assert (Hz : Nat.min (Z.to_nat (max' - Z.of_nat o))
                         (length (names_from k msg i)) = 0%nat).
    { destruct (Z.eqb_spec msg 0) as [-> | _];
        [rewrite names_from_zero; cbn [length]; lia |].
      destruct (Z.ltb_spec out max'); [| lia].
      destruct (Z.ltb_spec index 11); [discriminate n |].
      assert (k = 0)%nat by lia. subst k. cbn [names_from length]. lia. }
    rewrite Hz, Nat.add_0_r. cbn [take]. rewrite app_nil_l, take_drop.
    rewrite Ho. reflexivity.
  - (* a set bit is found and its name stored *)
    change lCameraMessagesNum with 11 in *.
    destruct (skip_clear_bits_names msg index i k Hi Hk)
      as (j & Hj & Hsnd & Hnames & _).
    rewrite e0 in Hsnd, Hnames. cbn [fst snd] in Hsnd, Hnames.
    apply andb_prop in e1 as [Hbit Hidx]. apply Z.ltb_lt in Hidx.
    rewrite land_1_testbit, negb_involutive in Hbit.
    apply andb_prop in e as [He _]. apply andb_prop in He as [_ Hout].
    apply Z.ltb_lt in Hout.
    destruct (k - j)%nat as [| m] eqn:Hm; [lia |].
    cbn [names_from] in Hnames. rewrite Hbit in Hnames.
    rewrite Hnames.
    match goal with
    | IH : forall i o n : nat, _ |- _ =>
        rewrite (IH (S (i + j)) (S o) m)
          by (try rewrite length_insert; lia)
    end.
    subst index' out.
    replace (Z.to_nat (max' - Z.of_nat o))
      with (S (Z.to_nat (max' - Z.of_nat (S o)))) by lia.
    rewrite !Nat2Z.id.
    set (rest := names_from m (Z.shiftr msg' 1) (S (i + j))).
    set (k' := Nat.min (Z.to_nat (max' - Z.of_nat (S o))) (length rest)).
    cbn [app length Nat.min]. fold k'. cbn [take].
    f_equal; [f_equal; lia |].
    rewrite (take_S_r _ _ (nth (i + j) lCameraMessages EmptyString))
      by (apply list_lookup_insert_eq; lia).
    rewrite take_insert_ge by lia.
    rewrite <- app_assoc. cbn [app].
    replace (o + S k')%nat with (S o + k')%nat by lia.
    rewrite drop_insert_lt by lia. reflexivity.
  - (* the table is exhausted before a set bit is found *)
    change lCameraMessagesNum with 11 in *.
    destruct (skip_clear_bits_names msg index i k Hi Hk)
      as (j & Hj & Hsnd & Hnames & Hex).
    rewrite e0 in Hsnd, Hnames, Hex. cbn [fst snd] in Hsnd, Hnames, Hex.
    assert (j = k).
    { destruct Hex as [Hbit | ->]; [| reflexivity].
      destruct (Nat.eq_dec j k) as [-> | Hne]; [reflexivity |].
      exfalso. apply n. rewrite land_1_testbit, Hbit. cbn [negb andb].
      apply Z.ltb_lt. lia. }
    subst j. rewrite Nat.sub_diag in Hnames.
    match goal with
    | IH : forall i o n : nat, _ |- _ =>
        rewrite (IH (i + k)%nat o 0%nat) by lia
    end.
    rewrite Hnames. reflexivity.
Qed.

Lemma message_names_low_bits (msg msg2 : Z) :
  (forall i, 0 <= i < lCameraMessagesNum ->
             Z.testbit msg2 i = Z.testbit msg i) ->
  message_names msg2 = message_names msg.
Proof.
  intros Hlow. unfold message_names. f_equal.
  apply List.filter_ext_in. intros k Hk. apply in_seq in Hk.
  apply Hlow. unfold lCameraMessagesNum. lia.
Qed.

(** C10. [GetMessageStrings(msg, strings, max)] returns, for every mask
    and every capacity [max >= 0] that the array can hold, the minimum of
    [max] and the number of bits set among the first 11 positions of
    [msg]; the array then starts with the names of that many set bits, in
    ascending bit order, and is unchanged after them. Bits at position 11
    and above do not matter. Termination is part of the definition (a
    total function). *)
Theorem GetMessageStrings_result :
  forall (msg : Z) (strings : list string) (max' : Z),
    0 <= max' -> max' <= Z.of_nat (length strings) ->
    let set_bits :=
      List.filter (fun i => Z.testbit msg (Z.of_nat i)) (seq 0 11) in
    let n := Z.min max' (Z.of_nat (length set_bits)) in
    GetMessageStrings msg strings max'
    = (n,
       take (Z.to_nat n)
            (map (fun i => nth i lCameraMessages EmptyString) set_bits)
       ++ drop (Z.to_nat n) strings) /\
    (forall msg2,
        (forall i, 0 <= i < 11 -> Z.testbit msg2 i = Z.testbit msg i) ->
        GetMessageStrings msg2 strings max'
        = GetMessageStrings msg strings max').
Proof.
  intros msg strings max' Hmax Hcap set_bits n.
  assert (Hrun : forall m,
    GetMessageStrings m strings max'
    = (Z.min max' (Z.of_nat (length (message_names m))),
       take (Z.to_nat (Z.min max' (Z.of_nat (length (message_names m)))))
            (message_names m)
       ++ drop (Z.to_nat (Z.min max' (Z.of_nat (length (message_names m)))))
               strings)).
  { intros m. unfold GetMessageStrings.
    rewrite (GetMessageStrings_loop_spec m strings max' 0 0 0%nat 0%nat
               (length lCameraMessages))
      by (try reflexivity; cbn [Z.of_nat]; lia).
    rewrite names_from_message_names.
    cbn [Z.of_nat take app Nat.add]. rewrite Z.sub_0_r.
    replace (Nat.min (Z.to_nat max') (length (message_names m)))
      with (Z.to_nat (Z.min max' (Z.of_nat (length (message_names m)))))
      by lia.
    f_equal. lia. }
  split.
  - rewrite Hrun. unfold message_names. fold set_bits.
    rewrite length_map. reflexivity.
  - intros msg2 Hlow. rewrite !Hrun.
    rewrite (message_names_low_bits msg msg2 Hlow). reflexivity.
Qed.

Lemma GetMessageStrings_result_witness :
  GetMessageStrings 0x825 (repeat EmptyString 4) 2
  = (2, ["CAMERA_MSG_ERROR"%string; "CAMERA_MSG_FOCUS"%string;
         EmptyString; EmptyString]).
Proof.
  assert (H0 : 0 <= 2) by lia.
  assert (Hcap : 2 <= Z.of_nat (length (repeat EmptyString 4)))
    by (simpl; lia).
  exact (proj1 (GetMessageStrings_result 0x825 (repeat EmptyString 4) 2
                  H0 Hcap)).
Defined.

(** * Further properties of the notifier *)

(** ** The message mask *)

Lemma land_pow2 (a i : Z) :
  0 <= i -> Z.land a (2 ^ i) = if Z.testbit a i then 2 ^ i else 0.
Proof.
  intros Hi. apply Z.bits_inj'. intros n Hn.
  rewrite Z.land_spec, Z.pow2_bits_eqb by lia.
  destruct (Z.eqb_spec i n) as [-> | Hne].
  - destruct (Z.testbit a n) eqn:Ha.
    + rewrite Z.pow2_bits_true by lia. reflexivity.
    + rewrite Z.bits_0. reflexivity.
  - rewrite andb_false_r.
    destruct (Z.testbit a i).
    + rewrite Z.pow2_bits_false by lia. reflexivity.
    + rewrite Z.bits_0. reflexivity.
Qed.

Lemma isMessageEnabled_bit (i : Z) (s : CallbackNotifier) :
  0 <= i -> isMessageEnabled (2 ^ i) s = Z.testbit (mMessageEnabler s) i.
Proof.
  intros Hi. unfold isMessageEnabled. rewrite land_pow2 by exact Hi.
  destruct (Z.testbit (mMessageEnabler s) i); [| reflexivity].
  destruct (Z.eqb_spec (2 ^ i) 0) as [H0 | _]; [| reflexivity].
  pose proof (Z.pow_pos_nonneg 2 i). lia.
Qed.

Lemma uint32_land_ones (z : Z) : uint32 z <-> Z.land z (Z.ones 32) = z.
Proof.
  unfold uint32. rewrite Z.land_ones by lia. split.
  - intros H. apply Z.mod_small. exact H.
  - intros H. rewrite <- H. apply Z.mod_pos_bound. lia.
Qed.

(** X1. Bit by bit, for each of the 32 message kinds [2^i]:
    [enableMessage(m)] turns the kind on when bit [i] of [m] is set and
    otherwise leaves it as it was; [disableMessage(m)] turns it off when
    bit [i] of [m] is set and otherwise leaves it as it was. Both keep the
    mask a 32-bit value. *)
Theorem message_mask_bitwise :
  forall (s : CallbackNotifier) (m i : Z),
    uint32 (mMessageEnabler s) -> uint32 m -> 0 <= i < 32 ->
    isMessageEnabled (2 ^ i) (enableMessage m s)
    = isMessageEnabled (2 ^ i) s || Z.testbit m i /\
    isMessageEnabled (2 ^ i) (disableMessage m s)
    = isMessageEnabled (2 ^ i) s && negb (Z.testbit m i) /\
    uint32 (mMessageEnabler (enableMessage m s)) /\
    uint32 (mMessageEnabler (disableMessage m s)).
Proof.
  intros s m i HM Hm Hi.
  rewrite !isMessageEnabled_bit by lia. simpl.
  split; [apply Z.lor_spec |]. split.
  - rewrite Z.land_spec, Z.lxor_spec.
    change 0xFFFFFFFF with (Z.ones 32).
    rewrite Z.ones_spec_low by lia.
    destruct (Z.testbit m i); reflexivity.
  - split.
    + apply uint32_land_ones. rewrite Z.land_lor_distr_l.
      apply uint32_land_ones in HM, Hm. rewrite HM, Hm. reflexivity.
    + apply uint32_land_ones. rewrite <- Z.land_assoc.
      rewrite (Z.land_comm (Z.lxor _ _)), Z.land_assoc.
      apply uint32_land_ones in HM. rewrite HM. reflexivity.
Qed.

Lemma message_mask_bitwise_witness :
  isMessageEnabled CAMERA_MSG_SHUTTER
    (enableMessage 0x302 newCallbackNotifier) = true /\
  isMessageEnabled CAMERA_MSG_SHUTTER
    (disableMessage 0x002 (enableMessage 0x302 newCallbackNotifier)) = false.
Proof.
  assert (H0 : uint32 (mMessageEnabler newCallbackNotifier))
    by (unfold uint32; simpl; lia).
  assert (Hm : uint32 0x302) by (unfold uint32; lia).
  assert (Hi : 0 <= 1 < 32) by lia.
  destruct (message_mask_bitwise newCallbackNotifier 0x302 1 H0 Hm Hi)
    as (Hen & _ & Hr & _).
  assert (Hm2 : uint32 0x002) by (unfold uint32; lia).
  destruct (message_mask_bitwise (enableMessage 0x302 newCallbackNotifier)
              0x002 1 Hr Hm2 Hi) as (_ & Hdis & _).
  split; [exact Hen | exact Hdis].
Defined.

(** X2. Enabling and disabling the same 32-bit mask compose as expected:
    the later call wins on the bits of the mask and the other bits are
    those of the original state; each call is idempotent. *)
Theorem enable_disable_compose :
  forall (s : CallbackNotifier) (m : Z),
    uint32 (mMessageEnabler s) -> uint32 m ->
    disableMessage m (enableMessage m s) = disableMessage m s /\
    enableMessage m (disableMessage m s) = enableMessage m s /\
    enableMessage m (enableMessage m s) = enableMessage m s /\
    disableMessage m (disableMessage m s) = disableMessage m s.
Proof.
  intros s m HM Hm.
  apply uint32_land_ones in HM, Hm.
  assert (Hbits : forall n, 32 <= n ->
            Z.testbit (mMessageEnabler s) n = false /\ Z.testbit m n = false).
  { intros n Hn. rewrite <- HM, <- Hm, !Z.land_spec.
    rewrite Z.ones_spec_high by lia. rewrite !andb_false_r. auto. }
  assert (Hones : forall n, 0 <= n ->
            Z.testbit 0xFFFFFFFF n = (n <? 32)).
  { intros n Hn. change 0xFFFFFFFF with (Z.ones 32).
    destruct (Z.ltb_spec n 32).
    - apply Z.ones_spec_low. lia.
    - apply Z.ones_spec_high. lia. }
  unfold enableMessage, disableMessage, set_mMessageEnabler. simpl.
  repeat split; f_equal; apply Z.bits_inj'; intros n Hn;
    rewrite ?Z.land_spec, ?Z.lor_spec, ?Z.land_spec, ?Z.lxor_spec,
      ?Hones by lia;
    destruct (Z.ltb_spec n 32);
    try (destruct (Hbits n ltac:(lia)) as [-> ->]);
    destruct (Z.testbit (mMessageEnabler s) n), (Z.testbit m n);
    reflexivity.
Qed.

Lemma enable_disable_compose_witness :
  disableMessage 0x302 (enableMessage 0x302 registered)
  = disableMessage 0x302 registered.
Proof.
  assert (H0 : uint32 (mMessageEnabler registered))
    by (unfold uint32; simpl; lia).
  assert (Hm : uint32 0x302) by (unfold uint32; lia).
  exact (proj1 (enable_disable_compose registered 0x302 H0 Hm)).
Defined.

(** ** Error notification *)

(** X3. [onCameraDeviceError] returns in every state, registered or not:
    it never calls through a null notify pointer. It leaves the object
    alone and notifies CAMERA_MSG_ERROR with the error code exactly once
    when that message is enabled and the notify endpoint is set, and does
    nothing at all otherwise. *)
Theorem onCameraDeviceError_never_faults :
  forall (err : Z) (w : Sys),
    exists evs,
      onCameraDeviceError err w
      = Ok tt {| self := self w; trace := trace w ++ evs |} /\
      (isMessageEnabled CAMERA_MSG_ERROR (self w) = true ->
       mNotifyCB (self w) <> NULL ->
       evs = [EvNotify CAMERA_MSG_ERROR err 0 (mCBOpaque (self w))]) /\
      (isMessageEnabled CAMERA_MSG_ERROR (self w) = false -> evs = []) /\
      (mNotifyCB (self w) = NULL -> evs = []).
Proof.
  intros err [s tr].
  unfold onCameraDeviceError, call_notify, when, bind, get_self, emit, ret,
    crash. simpl.
  destruct (isMessageEnabled CAMERA_MSG_ERROR s);
    destruct (Z.eqb_spec (mNotifyCB s) NULL) as [Hnull | Hset]; simpl.
  - exists []. rewrite app_nil_r. repeat split; congruence.
  - rewrite (proj2 (Z.eqb_neq _ _) Hset). simpl.
    eexists. split; [reflexivity |]. repeat split; congruence.
  - exists []. rewrite app_nil_r. repeat split; congruence.
  - exists []. rewrite app_nil_r. repeat split; congruence.
Qed.

Lemma onCameraDeviceError_never_faults_witness :
  exists evs,
    onCameraDeviceError 7
      (start (enableMessage CAMERA_MSG_ERROR registered))
    = Ok tt {| self := enableMessage CAMERA_MSG_ERROR registered;
               trace := [] ++ evs |} /\
    evs = [EvNotify CAMERA_MSG_ERROR 7 0 0x50].
Proof.
  destruct (onCameraDeviceError_never_faults 7
              (start (enableMessage CAMERA_MSG_ERROR registered)))
    as (evs & Hrun & Hon & _).
  exists evs. split; [exact Hrun |].
  apply Hon; [reflexivity | discriminate].
Defined.

(** ** Frames that find nothing to do *)

Lemma deliver_nothing_enabled (host : Host) (f : Frame) (w : Sys) :
  mMessageEnabler (self w) = 0 -> mTakingPicture (self w) = false ->
  deliver host f w = Ok tt w.
Proof.
  destruct w as [s tr]. simpl. intros Hmask Htake.
  unfold deliver, onNextFrameAvailable, videoFrameBranch, previewFrameBranch,
    takingPictureBranch, video_frame_due, message_enabled, when, bind, ret,
    get_self, isMessageEnabled.
  repeat (progress (simpl; rewrite ?Hmask, ?Htake)). reflexivity.
Qed.

Lemma deliver_all_nothing_enabled (host : Host) (fs : list Frame) (w : Sys) :
  mMessageEnabler (self w) = 0 -> mTakingPicture (self w) = false ->
  deliver_all host fs w = Ok tt w.
Proof.
  intros Hmask Htake. induction fs as [| f fs IH]; [reflexivity |].
  simpl. unfold bind. rewrite deliver_nothing_enabled by assumption.
  exact IH.
Qed.

(** X4. After [cleanupCBNotifier], and on a freshly constructed notifier,
    frames are ignored: any run of frames returns without any callback,
    allocation or state change, and without a fault although every
    endpoint is null. *)
Theorem frames_ignored_after_cleanup :
  forall (host : Host) (fs : list Frame) (w : Sys),
    deliver_all host fs
      {| self := cleanupCBNotifier (self w); trace := trace w |}
    = Ok tt {| self := cleanupCBNotifier (self w); trace := trace w |} /\
    deliver_all host fs {| self := newCallbackNotifier; trace := trace w |}
    = Ok tt {| self := newCallbackNotifier; trace := trace w |}.
Proof.
  intros host fs w.
  split; apply deliver_all_nothing_enabled; reflexivity.
Qed.

(** ** Runs of frames *)

Lemma video_timestamps_app (l1 l2 : list event) :
  video_timestamps (l1 ++ l2) = video_timestamps l1 ++ video_timestamps l2.
Proof.
  induction l1 as [| e l1 IH]; [reflexivity |].
  destruct e; simpl; try exact IH.
  destruct (msg_type =? CAMERA_MSG_VIDEO_FRAME); simpl; congruence.
Qed.

Lemma video_buffers_app (l1 l2 : list event) :
  video_buffers (l1 ++ l2) = video_buffers l1 ++ video_buffers l2.
Proof.
  induction l1 as [| e l1 IH]; [reflexivity |].
  destruct e; simpl; try exact IH.
  destruct (msg_type =? CAMERA_MSG_VIDEO_FRAME); simpl; congruence.
Qed.

Lemma data_buffers_app (l1 l2 : list event) :
  data_buffers (l1 ++ l2) = data_buffers l1 ++ data_buffers l2.
Proof.
  induction l1 as [| e l1 IH]; [reflexivity |].
  destruct e; simpl; congruence.
Qed.

Lemma released_buffers_app (l1 l2 : list event) :
  released_buffers (l1 ++ l2) = released_buffers l1 ++ released_buffers l2.
Proof.
  induction l1 as [| e l1 IH]; [reflexivity |].
  destruct e; simpl; congruence.
Qed.

(** What one frame shows to the observations above. *)
Lemma deliver_observed (host : Host) (f : Frame) (w : Sys) :
  all_registered (self w) ->
  exists w' evs,
    deliver host f w = Ok tt w' /\
    same_setup (self w) (self w') /\
    mTakingPicture (self w') = false /\
    mLastFrameTimestamp (self w')
    = (if video_due (frame_timestamp f) (self w) then frame_timestamp f
       else mLastFrameTimestamp (self w)) /\
    trace w' = trace w ++ evs /\
    mCameraMemoryTs (self w') = mCameraMemoryTs (self w) ++ video_buffers evs /\
    (video_timestamps evs = [] \/
     video_due (frame_timestamp f) (self w) = true /\
     video_timestamps evs = [frame_timestamp f]) /\
    data_buffers evs = released_buffers evs /\
    (video_due (frame_timestamp f) (self w) = false -> video_buffers evs = []).
Proof.
  intros Hreg.
  destruct (deliver_run host f w Hreg)
    as (w' & bp & bj & Hrun & Hsame & Htake & Hlast & Hmem & Htr).
  exists w'. eexists. split; [exact Hrun |]. split; [exact Hsame |].
  split; [exact Htake |]. split; [exact Hlast |]. split; [exact Htr |].
  set (bv := request_memory host (trace w) (getFrameBufferSize (frame_dev f)))
    in *.
  assert (Hpv : forall b, video_buffers (preview_events f (self w) b) = [] /\
                          video_timestamps (preview_events f (self w) b) = [] /\
                          data_buffers (preview_events f (self w) b)
                          = released_buffers (preview_events f (self w) b)).
  { intros b. repeat split; case_events. }
  assert (Hpic : forall b, video_buffers (picture_events host f (self w) b) = [] /\
                           video_timestamps (picture_events host f (self w) b) = [] /\
                           data_buffers (picture_events host f (self w) b)
                           = released_buffers (picture_events host f (self w) b)).
  { intros b. repeat split; case_events. }
  destruct (Hpv bp) as (Hpv1 & Hpv2 & Hpv3).
  assert (Hrest :
    video_buffers (if mTakingPicture (self w)
                   then picture_events host f (self w) bj else []) = [] /\
    video_timestamps (if mTakingPicture (self w)
                      then picture_events host f (self w) bj else []) = [] /\
    data_buffers (if mTakingPicture (self w)
                  then picture_events host f (self w) bj else [])
    = released_buffers (if mTakingPicture (self w)
                        then picture_events host f (self w) bj else [])).
  { destruct (mTakingPicture (self w)); [apply Hpic | repeat split]. }
  destruct Hrest as (Hr1 & Hr2 & Hr3).
  rewrite !video_buffers_app, !video_timestamps_app, !data_buffers_app,
    !released_buffers_app, Hpv1, Hpv2, Hpv3, Hr1, Hr2, Hr3, !app_nil_r.
  split; [| split; [| split]].
  - rewrite Hmem. f_equal. unfold video_registered, video_events.
    destruct (video_due _ _); [destruct (usable bv) |]; reflexivity.
  - unfold video_events.
    destruct (video_due _ _); [destruct (usable bv) |]; simpl; auto.
  - f_equal. unfold video_events.
    destruct (video_due _ _); [destruct (usable bv) |]; reflexivity.
  - intros Hdue. unfold video_events. rewrite Hdue. reflexivity.
Qed.

(** The same for a run of frames, with an invariant of the state that the
    frames preserve. *)
Lemma deliver_all_observed (host : Host) (fs : list Frame) :
  forall w : Sys,
    all_registered (self w) ->
    exists w' evs,
      deliver_all host fs w = Ok tt w' /\
      same_setup (self w) (self w') /\
      trace w' = trace w ++ evs /\
      mCameraMemoryTs (self w') = mCameraMemoryTs (self w) ++ video_buffers evs /\
      data_buffers evs = released_buffers evs /\
      (isMessageEnabled CAMERA_MSG_VIDEO_FRAME (self w)
       && isVideoRecordingEnabled (self w) = false ->
       video_timestamps evs = [] /\ video_buffers evs = [] /\
       mLastFrameTimestamp (self w') = mLastFrameTimestamp (self w)).
Proof.
  induction fs as [| f fs IH]; intros w Hreg.
  - exists w, []. simpl. unfold ret. rewrite !app_nil_r.
    repeat split; auto using same_setup_refl.
  - destruct (deliver_observed host f w Hreg)
      as (w1 & e1 & Hrun & Hsame & _ & Hlast & Htr & Hmem & Hts & Hdata & Hnone).
    destruct (IH w1 (same_setup_registered _ _ Hsame Hreg))
      as (w' & e2 & Hrun' & Hsame' & Htr' & Hmem' & Hdata' & Hoff').
    exists w', (e1 ++ e2). simpl. unfold bind. rewrite Hrun.
    split; [exact Hrun' |].
    split; [exact (same_setup_trans _ _ _ Hsame Hsame') |].
    split; [rewrite Htr', Htr, <- app_assoc; reflexivity |].
    split; [rewrite Hmem', Hmem, video_buffers_app, <- app_assoc; reflexivity |].
    split; [rewrite data_buffers_app, released_buffers_app; congruence |].
    intros Hoff.
    assert (Hdue : video_due (frame_timestamp f) (self w) = false).
    { unfold video_due. rewrite Hoff. reflexivity. }
    rewrite Hdue in Hlast.
    destruct Hts as [Hts | [Hdue' _]]; [| congruence].
    destruct Hoff' as (Hts' & Hbuf' & Hlast').
    { rewrite (same_setup_enabled _ _ _ Hsame). unfold isVideoRecordingEnabled.
      destruct Hsame as (_ & _ & _ & _ & _ & _ & _ & _ & -> & _). exact Hoff. }
    rewrite video_timestamps_app, video_buffers_app, Hts, Hts', Hbuf',
      (Hnone Hdue).
    repeat split; congruence.
Qed.

(** X5. After [disableVideoRecording], with the endpoints registered, no
    run of frames delivers a video frame, whatever the message mask: the
    list of outstanding buffers stays as it was and the pacing state stays
    at (0,0). *)
Theorem no_video_after_disableVideoRecording :
  forall (host : Host) (fs : list Frame) (w : Sys),
    all_registered (self w) ->
    let w0 := {| self := disableVideoRecording (self w); trace := trace w |} in
    exists w',
      deliver_all host fs w0 = Ok tt w' /\
      video_timestamps (new_events w0 w') = [] /\
      video_buffers (new_events w0 w') = [] /\
      mCameraMemoryTs (self w') = mCameraMemoryTs (self w) /\
      mVideoRecEnabled (self w') = false /\
      mLastFrameTimestamp (self w') = 0 /\
      mFrameRefreshFreq (self w') = 0.
Proof.
  intros host fs w Hreg w0.
  assert (Hreg0 : all_registered (self w0)) by exact Hreg.
  destruct (deliver_all_observed host fs w0 Hreg0)
    as (w' & evs & Hrun & Hsame & Htr & Hmem & _ & Hoff).
  destruct (Hoff (andb_false_r _)) as (Hts & Hbuf & Hlast).
  exists w'. rewrite (new_events_app _ _ _ Htr).
  split; [exact Hrun |]. split; [exact Hts |]. split; [exact Hbuf |].
  split; [rewrite Hmem, Hbuf, app_nil_r; reflexivity |].
  destruct Hsame as (_ & _ & _ & _ & _ & _ & _ & _ & Hrec & Hfreq).
  split; [exact Hrec |]. split; [exact Hlast | exact Hfreq].
Qed.

Lemma no_video_after_disableVideoRecording_witness :
  exists w',
    deliver_all good_host [frame_at 0; frame_at 40000000]
      (start (disableVideoRecording
                (set_mFrameRefreshFreq 33333333
                   (set_mVideoRecEnabled true
                      (enableMessage CAMERA_MSG_VIDEO_FRAME registered)))))
    = Ok tt w' /\
    mCameraMemoryTs (self w') = [].
Proof.
  assert (Hreg : all_registered
            (self (start (set_mFrameRefreshFreq 33333333
                     (set_mVideoRecEnabled true
                        (enableMessage CAMERA_MSG_VIDEO_FRAME registered)))))).
  { unfold all_registered, NULL. simpl. repeat split; discriminate. }
  destruct (no_video_after_disableVideoRecording good_host
              [frame_at 0; frame_at 40000000] _ Hreg)
    as (w' & Hrun & _ & _ & Hmem & _).
  exists w'. split; [exact Hrun | exact Hmem].
Defined.

(** X7. With the endpoints registered, every run of frames returns and
    changes neither the endpoints, the mask, the JPEG quality, the
    parameters nor the recording settings; the list of outstanding buffers
    only grows, by exactly the buffers handed to the video callback, in
    the order of their delivery. *)
Theorem registry_tracks_video_deliveries :
  forall (host : Host) (fs : list Frame) (w : Sys),
    all_registered (self w) ->
    exists w',
      deliver_all host fs w = Ok tt w' /\
      same_setup (self w) (self w') /\
      mCameraMemoryTs (self w')
      = mCameraMemoryTs (self w) ++ video_buffers (new_events w w').
Proof.
  intros host fs w Hreg.
  destruct (deliver_all_observed host fs w Hreg)
    as (w' & evs & Hrun & Hsame & Htr & Hmem & _).
  exists w'. rewrite (new_events_app _ _ _ Htr). auto.
Qed.

Lemma registry_tracks_video_deliveries_witness :
  exists w',
    deliver_all good_host [frame_at 40000000; frame_at 90000000]
      (start (set_mFrameRefreshFreq 33333333
                (set_mVideoRecEnabled true
                   (enableMessage CAMERA_MSG_VIDEO_FRAME registered))))
    = Ok tt w' /\
    length (mCameraMemoryTs (self w')) = 2%nat.
Proof.
  assert (Hreg : all_registered
            (self (start (set_mFrameRefreshFreq 33333333
                     (set_mVideoRecEnabled true
                        (enableMessage CAMERA_MSG_VIDEO_FRAME registered)))))).
  { unfold all_registered, NULL. simpl. repeat split; discriminate. }
  destruct (registry_tracks_video_deliveries good_host
              [frame_at 40000000; frame_at 90000000] _ Hreg)
    as (w' & Hrun & _ & Hmem).
  exists w'. split; [exact Hrun |].
  vm_compute in Hrun. injection Hrun as <-. reflexivity.
Defined.

Lemma released_after_callback_app (l1 l2 : list event) :
  forall pending,
    released_after_callback pending l1 ->
    released_after_callback None l2 ->
    released_after_callback pending (l1 ++ l2).
Proof.
  induction l1 as [| e l1 IH]; intros pending H1 H2.
  - destruct pending; [destruct H1 | exact H2].
  - destruct pending as [b |]; destruct e; simpl in *;
      try contradiction; try (apply IH; assumption).
    destruct H1 as [Hb H1]. split; [exact Hb | apply IH; assumption].
Qed.

Lemma frame_events_released_after_callback (host : Host) (f : Frame)
      (s : CallbackNotifier) (bv bp bj : option camera_memory_t) :
  released_after_callback None (video_events f s bv) /\
  released_after_callback None (preview_events f s bp) /\
  released_after_callback None (picture_events host f s bj).
Proof.
  unfold video_events, preview_events, picture_events,
    compressed_image_events, thumbnail_events, jpeg_delivery_events.
  repeat match goal with
         | |- context [if ?c then _ else _] => destruct c
         | |- context [match usable ?b with _ => _ end] => destruct (usable b)
         end;
    simpl; auto.
Qed.

Lemma deliver_all_released_after_callback (host : Host) (fs : list Frame) :
  forall w : Sys,
    all_registered (self w) ->
    exists w' evs,
      deliver_all host fs w = Ok tt w' /\
      trace w' = trace w ++ evs /\
      released_after_callback None evs.
Proof.
  induction fs as [| f fs IH]; intros w Hreg.
  - exists w, []. simpl. unfold ret. rewrite app_nil_r. auto.
  - destruct (deliver_run host f w Hreg)
      as (w1 & bp & bj & Hrun & Hsame & _ & _ & _ & Htr).
    destruct (IH w1 (same_setup_registered _ _ Hsame Hreg))
      as (w' & e2 & Hrun' & Htr' & Hrel).
    exists w'. eexists. simpl. unfold bind. rewrite Hrun.
    split; [exact Hrun' |].
    split; [rewrite Htr', Htr, <- !app_assoc; reflexivity |].
    destruct (frame_events_released_after_callback host f (self w)
                (request_memory host (trace w)
                   (getFrameBufferSize (frame_dev f))) bp bj)
      as (Hv & Hp & Hj).
    repeat apply released_after_callback_app; try assumption.
    destruct (mTakingPicture (self w)); [exact Hj | exact I].
Qed.

(** X8. With the endpoints registered, in every run of frames each buffer
    handed to the data callback (a preview frame or a compressed image) is
    released by the notifier directly after that callback, and the
    dispatch releases nothing else; hence the buffers released are exactly
    the buffers handed to the data callback, in the same order. *)
Theorem data_buffers_released_by_dispatch :
  forall (host : Host) (fs : list Frame) (w : Sys),
    all_registered (self w) ->
    exists w',
      deliver_all host fs w = Ok tt w' /\
      released_buffers (new_events w w') = data_buffers (new_events w w') /\
      released_after_callback None (new_events w w').
Proof.
  intros host fs w Hreg.
  destruct (deliver_all_observed host fs w Hreg)
    as (w' & evs & Hrun & _ & Htr & _ & Hdata & _).
  destruct (deliver_all_released_after_callback host fs w Hreg)
    as (w2 & evs2 & Hrun2 & Htr2 & Hrel).
  rewrite Hrun in Hrun2. injection Hrun2 as <-.
  exists w'. split; [exact Hrun |].
  split.
  - rewrite (new_events_app _ _ _ Htr). auto.
  - rewrite (new_events_app _ _ _ Htr2). exact Hrel.
Qed.

Lemma data_buffers_released_by_dispatch_witness :
  exists w',
    deliver_all good_host [frame_at 0; frame_at 10]
      (start (setTakingPicture true (enableMessage 0x110 registered)))
    = Ok tt w' /\
    length (released_buffers (trace w')) = 3%nat.
Proof.
  assert (Hreg : all_registered
            (self (start (setTakingPicture true
                            (enableMessage 0x110 registered))))).
  { unfold all_registered, NULL. simpl. repeat split; discriminate. }
  destruct (data_buffers_released_by_dispatch good_host
              [frame_at 0; frame_at 10] _ Hreg) as (w' & Hrun & _).
  exists w'. split; [exact Hrun |].
  vm_compute in Hrun. injection Hrun as <-. reflexivity.
Defined.

Lemma paced_weaken (interval lo lo' : Z) (ts : list Z) :
  lo <= lo' -> paced interval lo' ts -> paced interval lo ts.
Proof.
  destruct ts as [| t ts]; simpl; [auto |].
  intros Hlo [Ht Hts]. split; [lia | exact Hts].
Qed.

Lemma deliver_all_paced (host : Host) (fs : list Frame) :
  forall (w : Sys) (lo : Z),
    all_registered (self w) ->
    0 <= mFrameRefreshFreq (self w) ->
    0 <= mLastFrameTimestamp (self w) <= INT64_MAX ->
    lo <= mLastFrameTimestamp (self w) ->
    Forall (fun f => 0 <= frame_timestamp f <= INT64_MAX) fs ->
    exists w' evs,
      deliver_all host fs w = Ok tt w' /\
      trace w' = trace w ++ evs /\
      paced (mFrameRefreshFreq (self w)) lo (video_timestamps evs).
Proof.
  induction fs as [| f fs IH]; intros w lo Hreg Hfreq Hlast Hlo Hfs.
  - exists w, []. simpl. unfold ret. rewrite app_nil_r. auto.
  - apply Forall_cons_iff in Hfs as [Hf Hfs].
    destruct (deliver_observed host f w Hreg)
      as (w1 & e1 & Hrun & Hsame & _ & Hlast1 & Htr & _ & Hts & _).
    pose proof (same_setup_registered _ _ Hsame Hreg) as Hreg1.
    assert (Hfreq1 : mFrameRefreshFreq (self w1) = mFrameRefreshFreq (self w)).
    { destruct Hsame as (_ & _ & _ & _ & _ & _ & _ & _ & _ & ->). reflexivity. }
    assert (Hadm : video_due (frame_timestamp f) (self w) = true ->
                   frame_timestamp f - mLastFrameTimestamp (self w)
                   >= mFrameRefreshFreq (self w)).
    { unfold video_due. intros Hdue. apply andb_prop in Hdue as [_ Hdue].
      rewrite isNewVideoFrameTime_fst in Hdue.
      rewrite wrap64_in_range in Hdue
        by (unfold in_int64, INT64_MIN, INT64_MAX in *; lia).
      apply Z.leb_le in Hdue. lia. }
    assert (Hstep : forall lo',
              lo' <= mLastFrameTimestamp (self w1) ->
              exists w' evs,
                deliver_all host fs w1 = Ok tt w' /\
                trace w' = trace w1 ++ evs /\
                paced (mFrameRefreshFreq (self w)) lo' (video_timestamps evs)).
    { intros lo' Hlo'. rewrite <- Hfreq1. apply IH; auto.
      - rewrite Hfreq1. exact Hfreq.
      - rewrite Hlast1. destruct (video_due _ _); assumption. }
    destruct (video_due (frame_timestamp f) (self w)) eqn:Hdue.
    + specialize (Hadm eq_refl).
      destruct Hts as [Hts | [_ Hts]].
      * destruct (Hstep lo) as (w' & e2 & Hrun' & Htr' & Hp); [lia |].
        exists w', (e1 ++ e2). simpl. unfold bind. rewrite Hrun.
        split; [exact Hrun' |].
        split; [rewrite Htr', Htr, <- app_assoc; reflexivity |].
        rewrite video_timestamps_app, Hts. exact Hp.
      * destruct (Hstep (frame_timestamp f)) as (w' & e2 & Hrun' & Htr' & Hp);
          [lia |].
        exists w', (e1 ++ e2). simpl. unfold bind. rewrite Hrun.
        split; [exact Hrun' |].
        split; [rewrite Htr', Htr, <- app_assoc; reflexivity |].
        rewrite video_timestamps_app, Hts. simpl. split; [lia | exact Hp].
    + destruct Hts as [Hts | [Hcontra _]]; [| discriminate].
      destruct (Hstep lo) as (w' & e2 & Hrun' & Htr' & Hp); [lia |].
      exists w', (e1 ++ e2). simpl. unfold bind. rewrite Hrun.
      split; [exact Hrun' |].
      split; [rewrite Htr', Htr, <- app_assoc; reflexivity |].
      rewrite video_timestamps_app, Hts. exact Hp.
Qed.

(** X6. Video frames are never delivered closer together than the
    interval. With the endpoints registered, a non-negative interval and
    non-negative 64-bit timestamps, in every run of frames the timestamps
    handed to the video callback are each at least one interval after the
    previous one, the first at least one interval after the last frame
    time recorded before the run; this holds even when allocations fail in
    between. *)
Theorem video_deliveries_are_paced :
  forall (host : Host) (fs : list Frame) (w : Sys),
    all_registered (self w) ->
    0 <= mFrameRefreshFreq (self w) ->
    0 <= mLastFrameTimestamp (self w) <= INT64_MAX ->
    Forall (fun f => 0 <= frame_timestamp f <= INT64_MAX) fs ->
    exists w',
      deliver_all host fs w = Ok tt w' /\
      paced (mFrameRefreshFreq (self w)) (mLastFrameTimestamp (self w))
            (video_timestamps (new_events w w')).
Proof.
  intros host fs w Hreg Hfreq Hlast Hfs.
  destruct (deliver_all_paced host fs w (mLastFrameTimestamp (self w))
              Hreg Hfreq Hlast (Z.le_refl _) Hfs)
    as (w' & evs & Hrun & Htr & Hp).
  exists w'. rewrite (new_events_app _ _ _ Htr). auto.
Qed.

Lemma video_deliveries_are_paced_witness :
  exists w',
    deliver_all good_host
      [frame_at 40000000; frame_at 50000000; frame_at 90000000]
      (start (set_mFrameRefreshFreq 33333333
                (set_mVideoRecEnabled true
                   (enableMessage CAMERA_MSG_VIDEO_FRAME registered))))
    = Ok tt w' /\
    video_timestamps (trace w') = [40000000; 90000000].
Proof.
  assert (Hreg : all_registered
            (self (start (set_mFrameRefreshFreq 33333333
                     (set_mVideoRecEnabled true
                        (enableMessage CAMERA_MSG_VIDEO_FRAME registered)))))).
  { unfold all_registered, NULL. simpl. repeat split; discriminate. }
  assert (Hfs : Forall (fun f => 0 <= frame_timestamp f <= INT64_MAX)
                  [frame_at 40000000; frame_at 50000000; frame_at 90000000]).
  { repeat constructor; unfold INT64_MAX; simpl; lia. }
  destruct (video_deliveries_are_paced good_host _ _ Hreg
              ltac:(simpl; lia) ltac:(unfold INT64_MAX; simpl; lia) Hfs)
    as (w' & Hrun & _).
  exists w'. split; [exact Hrun |].
  vm_compute in Hrun. injection Hrun as <-. reflexivity.
Defined.

(** ** Outstanding buffers *)

Lemma release_first_accounting (opaque : ptr) (l : list camera_memory_t) :
  fst (release_first opaque l) = head (matching opaque l) /\
  matching opaque (snd (release_first opaque l)) = tail (matching opaque l) /\
  others opaque (snd (release_first opaque l)) = others opaque l.
Proof.
  unfold matching, others.
  induction l as [| x l (IHr & IHm & IHo)]; [repeat split |].
  simpl. destruct (data x =? opaque) eqn:Hx; simpl.
  - repeat split.
  - destruct (release_first opaque l) as [r l']. simpl in *.
    rewrite Hx. simpl. rewrite IHm, IHo. repeat split. exact IHr.
Qed.

(** X10. [releaseRecordingFrame] works off duplicates one at a time and
    never disturbs other buffers: the outstanding buffers with another
    payload pointer stay as they are, in order; of those with the given
    pointer the first is released and dropped and the rest stay; nothing
    but the list of outstanding buffers changes. Hence, when at most one
    buffer matched, a second release of the same pointer does nothing. *)
Theorem releaseRecordingFrame_accounting :
  forall (w : Sys) (opaque : ptr),
    exists w',
      releaseRecordingFrame opaque w = Ok tt w' /\
      released_buffers (new_events w w')
      = take 1 (matching opaque (mCameraMemoryTs (self w))) /\
      matching opaque (mCameraMemoryTs (self w'))
      = tail (matching opaque (mCameraMemoryTs (self w))) /\
      others opaque (mCameraMemoryTs (self w'))
      = others opaque (mCameraMemoryTs (self w)) /\
      same_setup (self w) (self w') /\
      mTakingPicture (self w') = mTakingPicture (self w) /\
      mLastFrameTimestamp (self w') = mLastFrameTimestamp (self w) /\
      ((length (matching opaque (mCameraMemoryTs (self w))) <= 1)%nat ->
       releaseRecordingFrame opaque w' = Ok tt w').
Proof.
  intros [s tr] opaque.
  pose proof (release_first_accounting opaque (mCameraMemoryTs s))
    as (Hr & Hm & Ho).
  unfold releaseRecordingFrame, bind, get_self, emit, modify_self, ret.
  simpl.
  destruct (release_first opaque (mCameraMemoryTs s)) as [[it |] l'] eqn:Hrel;
    simpl in *.
  - eexists. split; [reflexivity |].
    unfold new_events. simpl. rewrite drop_app_length. simpl.
    destruct (matching opaque (mCameraMemoryTs s)) as [| x xs] eqn:Hmatch;
      [discriminate |].
    injection Hr as <-. simpl in *.
    split; [reflexivity |]. split; [exact Hm |]. split; [exact Ho |].
    split; [unfold same_setup; simpl; tauto |]. split; [reflexivity |].
    split; [reflexivity |].
    intros Hone. destruct xs; [| simpl in Hone; lia].
    rewrite release_first_none; [reflexivity |].
    intros b Hb Hdata.
    assert (Hin : In b (matching opaque l')).
    { unfold matching. apply List.filter_In. split; [exact Hb |].
      apply Z.eqb_eq. exact Hdata. }
    rewrite Hm in Hin. destruct Hin.
  - eexists. split; [reflexivity |].
    unfold new_events. simpl. rewrite drop_all.
    destruct (matching opaque (mCameraMemoryTs s)) as [| x xs] eqn:Hmatch;
      [| discriminate].
    assert (Hl' : l' = mCameraMemoryTs s).
    { rewrite release_first_none in Hrel; [congruence |].
      intros b Hb Hdata.
      assert (Hin : In b (matching opaque (mCameraMemoryTs s))).
      { unfold matching. apply List.filter_In. split; [exact Hb |].
        apply Z.eqb_eq. exact Hdata. }
      rewrite Hmatch in Hin. destruct Hin. }
    subst l'. simpl.
    split; [reflexivity |]. split; [reflexivity |]. split; [reflexivity |].
    split; [apply same_setup_refl |]. split; [reflexivity |].
    split; [reflexivity |].
    intros _. rewrite Hrel. reflexivity.
Qed.

Lemma releaseRecordingFrame_accounting_witness :
  exists w',
    releaseRecordingFrame 0x8000
      (start (set_mCameraMemoryTs
                [ {| mem_addr := 1; data := 0x9000; mem_size := 8 |};
                  {| mem_addr := 2; data := 0x8000; mem_size := 8 |} ]
                registered))
    = Ok tt w' /\
    releaseRecordingFrame 0x8000 w' = Ok tt w'.
Proof.
  destruct (releaseRecordingFrame_accounting
              (start (set_mCameraMemoryTs
                [ {| mem_addr := 1; data := 0x9000; mem_size := 8 |};
                  {| mem_addr := 2; data := 0x8000; mem_size := 8 |} ]
                registered)) 0x8000)
    as (w' & Hrun & _ & _ & _ & _ & _ & _ & Hagain).
  exists w'. split; [exact Hrun |].
  apply Hagain. simpl. lia.
Defined.

Lemma release_first_app_last (b : camera_memory_t)
      (l : list camera_memory_t) :
  (forall x, In x l -> data x <> data b) ->
  release_first (data b) (l ++ [b]) = (Some b, l).
Proof.
  induction l as [| x l IH]; intros Hno; simpl.
  - rewrite Z.eqb_refl. reflexivity.
  - destruct (Z.eqb_spec (data x) (data b)) as [Heq | _].
    + exfalso. apply (Hno x); [left; reflexivity | exact Heq].
    + rewrite IH; [reflexivity |]. intros y Hy. apply Hno. right. exact Hy.
Qed.

(** X9. Delivery and release round trip. With the endpoints registered,
    when a frame is delivered as a video frame in buffer [b] and no
    outstanding buffer already has [b]'s payload pointer, the buffer is
    appended to the outstanding list, and releasing its payload pointer
    invokes the release of [b] (and only that) and puts the list back as
    it was before the frame. *)
Theorem video_frame_release_round_trip :
  forall (host : Host) (f : Frame) (w : Sys) (b : camera_memory_t),
    all_registered (self w) ->
    isMessageEnabled CAMERA_MSG_VIDEO_FRAME (self w)
    && isVideoRecordingEnabled (self w)
    && fst (isNewVideoFrameTime (frame_timestamp f) (self w)) = true ->
    usable (request_memory host (trace w) (getFrameBufferSize (frame_dev f)))
    = Some b ->
    (forall x, In x (mCameraMemoryTs (self w)) -> data x <> data b) ->
    exists w1 w2,
      deliver host f w = Ok tt w1 /\
      mCameraMemoryTs (self w1) = mCameraMemoryTs (self w) ++ [b] /\
      releaseRecordingFrame (data b) w1 = Ok tt w2 /\
      mCameraMemoryTs (self w2) = mCameraMemoryTs (self w) /\
      trace w2 = trace w1 ++ [EvRelease b].
Proof.
  intros host f w b Hreg Hdue Hbuf Hfresh.
  destruct (deliver_run host f w Hreg)
    as (w1 & bp & bj & Hrun & _ & _ & _ & Hmem & _).
  unfold video_registered, video_due in Hmem.
  rewrite Hdue, Hbuf in Hmem.
  exists w1. eexists. split; [exact Hrun |]. split; [exact Hmem |].
  unfold releaseRecordingFrame, bind, get_self, emit, modify_self.
  rewrite Hmem, (release_first_app_last b _ Hfresh). simpl.
  split; [reflexivity |]. split; reflexivity.
Qed.

Lemma video_frame_release_round_trip_witness :
  exists w1 w2,
    deliver good_host (frame_at 40000000)
      (start (set_mFrameRefreshFreq 33333333
                (set_mVideoRecEnabled true
                   (enableMessage CAMERA_MSG_VIDEO_FRAME registered))))
    = Ok tt w1 /\
    releaseRecordingFrame 0x8000 w1 = Ok tt w2 /\
    mCameraMemoryTs (self w2) = [].
Proof.
  assert (Hreg : all_registered
            (self (start (set_mFrameRefreshFreq 33333333
                     (set_mVideoRecEnabled true
                        (enableMessage CAMERA_MSG_VIDEO_FRAME registered)))))).
  { unfold all_registered, NULL. simpl. repeat split; discriminate. }
  destruct (video_frame_release_round_trip good_host (frame_at 40000000) _
              {| mem_addr := 0x1000; data := 0x8000; mem_size := 460800 |}
              Hreg eq_refl eq_refl)
    as (w1 & w2 & Hrun & _ & Hrel & Hmem & _).
  { intros x []. }
  exists w1, w2. split; [exact Hrun |]. split; [exact Hrel | exact Hmem].
Defined.

(** ** Logging *)

Lemma map_nth_seq (d : string) (l : list string) :
  forall k : nat, (k <= length l)%nat ->
    map (fun n => nth n l d) (seq 0 k) = take k l.
Proof.
  induction l as [| x l IH]; intros k Hk.
  - simpl in Hk. assert (k = 0%nat) by lia. subst k. reflexivity.
  - destruct k as [| k]; [reflexivity |].
    cbn [seq map nth take]. f_equal.
    rewrite <- seq_shift, map_map. apply IH. simpl in Hk. lia.
Qed.

Lemma message_names_length (msg : Z) :
  (length (message_names msg) <= length lCameraMessages)%nat.
Proof.
  unfold message_names. rewrite length_map.
  etransitivity; [apply List.filter_length_le |].
  rewrite length_seq. reflexivity.
Qed.

(** X11. [PrintMessages(msg)] logs exactly the names of the bits set
    among the first 11 positions of [msg], all of them, in ascending bit
    order, whatever the local array held before: the array of 11 entries
    is never too small and no entry is logged that was not written. *)
Theorem PrintMessages_logs_set_bits :
  forall (msg : Z) (strs : list string),
    length strs = length lCameraMessages ->
    PrintMessages msg strs
    = map (fun i => nth i lCameraMessages EmptyString)
          (List.filter (fun i => Z.testbit msg (Z.of_nat i)) (seq 0 11)).
Proof.
  intros msg strs Hlen. change (map _ _) with (message_names msg).
  unfold PrintMessages, GetMessageStrings.
  rewrite (GetMessageStrings_loop_spec msg strs lCameraMessagesNum 0 0
             0%nat 0%nat (length lCameraMessages))
    by (try reflexivity; unfold lCameraMessagesNum; rewrite ?Hlen;
        cbn [Z.of_nat]; lia).
  rewrite names_from_message_names.
  pose proof (message_names_length msg) as Hle.
  replace (Nat.min (Z.to_nat (lCameraMessagesNum - Z.of_nat 0))
                   (length (message_names msg)))
    with (length (message_names msg))
    by (unfold lCameraMessagesNum; lia).
  cbn [Nat.add]. rewrite Nat2Z.id.
  change (take 0 strs) with (@nil string). cbn [app].
  rewrite firstn_all.
  rewrite map_nth_seq by (rewrite length_app; lia).
  apply take_app_length.
Qed.

Lemma PrintMessages_logs_set_bits_witness :
  PrintMessages 0x825 (repeat "junk"%string 11)
  = ["CAMERA_MSG_ERROR"%string; "CAMERA_MSG_FOCUS"%string;
     "CAMERA_MSG_VIDEO_FRAME"%string].
Proof.
  exact (PrintMessages_logs_set_bits 0x825 (repeat "junk"%string 11) eq_refl).
Defined.

(** ** Registration and recording control *)

(** X12. [setCallbacks] with four non-null endpoints makes the dispatch
    safe from any state: every run of frames returns, and
    [autoFocusComplete] returns after notifying CAMERA_MSG_FOCUS with
    success, passing back the registered context, whether or not the
    focus message is enabled. The call replaces the endpoints and the
    context only. *)
Theorem setCallbacks_makes_dispatch_safe :
  forall (host : Host) (fs : list Frame) (s : CallbackNotifier)
         (tr : list event) (notify_cb data_cb data_cb_timestamp get_memory
                            user : ptr),
    notify_cb <> NULL -> data_cb <> NULL ->
    data_cb_timestamp <> NULL -> get_memory <> NULL ->
    let s' := setCallbacks notify_cb data_cb data_cb_timestamp get_memory
                           user s in
    (exists w', deliver_all host fs {| self := s'; trace := tr |} = Ok tt w') /\
    autoFocusComplete {| self := s'; trace := tr |}
    = Ok tt {| self := s';
               trace := tr ++ [EvNotify CAMERA_MSG_FOCUS 1 0 user] |} /\
    mMessageEnabler s' = mMessageEnabler s /\
    mTakingPicture s' = mTakingPicture s /\
    mVideoRecEnabled s' = mVideoRecEnabled s /\
    mLastFrameTimestamp s' = mLastFrameTimestamp s /\
    mFrameRefreshFreq s' = mFrameRefreshFreq s /\
    mCameraMemoryTs s' = mCameraMemoryTs s /\
    mJpegQuality s' = mJpegQuality s /\
    mCameraParameters s' = mCameraParameters s /\
    (mNotifyCB s', mDataCB s', mDataCBTimestamp s', mGetMemoryCB s',
     mCBOpaque s')
    = (notify_cb, data_cb, data_cb_timestamp, get_memory, user).
Proof.
  intros host fs s tr n d t g u Hn Hd Ht Hg s'.
  assert (Hreg : all_registered (self {| self := s'; trace := tr |})).
  { unfold all_registered. simpl. auto. }
  split.
  - destruct (deliver_all_observed host fs _ Hreg) as (w' & _ & Hrun & _).
    exists w'. exact Hrun.
  - split; [| repeat split].
    unfold autoFocusComplete, call_notify, bind, get_self, emit, crash.
    simpl. rewrite (proj2 (Z.eqb_neq _ _) Hn). reflexivity.
Qed.

Lemma setCallbacks_makes_dispatch_safe_witness :
  (exists w',
      deliver_all good_host [frame_at 0; frame_at 40000000]
        (start (setCallbacks 0x10 0x20 0x30 0x40 0x50
                  (setTakingPicture true
                     (enableMessage 0x332 newCallbackNotifier))))
      = Ok tt w') /\
  autoFocusComplete
    (start (setCallbacks 0x10 0x20 0x30 0x40 0x50
              (setTakingPicture true
                 (enableMessage 0x332 newCallbackNotifier))))
  = Ok tt {| self := setCallbacks 0x10 0x20 0x30 0x40 0x50
                       (setTakingPicture true
                          (enableMessage 0x332 newCallbackNotifier));
             trace := [] ++ [EvNotify CAMERA_MSG_FOCUS 1 0 0x50] |}.
Proof.
  assert (H1 : 0x10 <> NULL) by discriminate.
  assert (H2 : 0x20 <> NULL) by discriminate.
  assert (H3 : 0x30 <> NULL) by discriminate.
  assert (H4 : 0x40 <> NULL) by discriminate.
  destruct (setCallbacks_makes_dispatch_safe good_host
              [frame_at 0; frame_at 40000000]
              (setTakingPicture true
                 (enableMessage 0x332 newCallbackNotifier))
              [] 0x10 0x20 0x30 0x40 0x50 H1 H2 H3 H4)
    as (Hframes & Hfocus & _).
  split; [exact Hframes | exact Hfocus].
Defined.

(** X13. Rate limit after [enableVideoRecording]. With the endpoints
    registered and [fps > 0], after [enableVideoRecording(fps)] every run
    of frames with non-negative 64-bit timestamps hands to the video
    callback only timestamps that are at least [1000000000 / fps] apart,
    the first of them at least [1000000000 / fps]. *)
Theorem video_rate_limited_after_enableVideoRecording :
  forall (host : Host) (fs : list Frame) (s : CallbackNotifier)
         (tr : list event) (fps : Z),
    all_registered s -> 0 < fps ->
    Forall (fun f => 0 <= frame_timestamp f <= INT64_MAX) fs ->
    exists s' w',
      enableVideoRecording fps s = Ok NO_ERROR s' /\
      deliver_all host fs {| self := s'; trace := tr |} = Ok tt w' /\
      paced (Z.quot 1000000000 fps) 0
            (video_timestamps (new_events {| self := s'; trace := tr |} w')).
Proof.
  intros host fs s tr fps Hreg Hfps Hfs.
  unfold enableVideoRecording.
  destruct (Z.eqb_spec fps 0) as [| _]; [lia |].
  set (s' := set_mFrameRefreshFreq (Z.quot 1000000000 fps)
               (set_mLastFrameTimestamp 0 (set_mVideoRecEnabled true s))).
  destruct (deliver_all_paced host fs {| self := s'; trace := tr |} 0)
    as (w' & evs & Hrun & Htr & Hp).
  - exact Hreg.
  - simpl. apply Z.quot_pos; lia.
  - simpl. unfold INT64_MAX. lia.
  - simpl. lia.
  - exact Hfs.
  - exists s', w'. split; [reflexivity |]. split; [exact Hrun |].
    rewrite (new_events_app _ _ _ Htr). exact Hp.
Qed.

Lemma video_rate_limited_after_enableVideoRecording_witness :
  exists s' w',
    enableVideoRecording 30
      (enableMessage CAMERA_MSG_VIDEO_FRAME registered) = Ok NO_ERROR s' /\
    deliver_all good_host
      [frame_at 40000000; frame_at 50000000; frame_at 90000000] (start s')
    = Ok tt w' /\
    video_timestamps (trace w') = [40000000; 90000000].
Proof.
  assert (Hreg : all_registered
                   (enableMessage CAMERA_MSG_VIDEO_FRAME registered)).
  { unfold all_registered, NULL. simpl. repeat split; discriminate. }
  assert (Hfs : Forall (fun f => 0 <= frame_timestamp f <= INT64_MAX)
                  [frame_at 40000000; frame_at 50000000; frame_at 90000000]).
  { repeat constructor; unfold INT64_MAX; simpl; lia. }
  destruct (video_rate_limited_after_enableVideoRecording good_host _
              (enableMessage CAMERA_MSG_VIDEO_FRAME registered) [] 30
              Hreg ltac:(lia) Hfs)
    as (s' & w' & Hen & Hrun & _).
  exists s', w'. split; [exact Hen |]. split; [exact Hrun |].
  vm_compute in Hen. injection Hen as <-.
  vm_compute in Hrun. injection Hrun as <-. reflexivity.
Defined.

(** X14. The pacing test is only run for frames that can be video frames:
    while the video-frame message is disabled, a run of frames delivers no
    video frame and leaves the last frame time and the outstanding buffers
    untouched, even with recording active. *)
Theorem pacing_untouched_while_video_disabled :
  forall (host : Host) (fs : list Frame) (w : Sys),
    all_registered (self w) ->
    isMessageEnabled CAMERA_MSG_VIDEO_FRAME (self w) = false ->
    exists w',
      deliver_all host fs w = Ok tt w' /\
      video_timestamps (new_events w w') = [] /\
      mLastFrameTimestamp (self w') = mLastFrameTimestamp (self w) /\
      mCameraMemoryTs (self w') = mCameraMemoryTs (self w).
Proof.
  intros host fs w Hreg Hoff.
  destruct (deliver_all_observed host fs w Hreg)
    as (w' & evs & Hrun & _ & Htr & Hmem & _ & Hnone).
  destruct Hnone as (Hts & Hbuf & Hlast); [rewrite Hoff; reflexivity |].
  exists w'. rewrite (new_events_app _ _ _ Htr).
  split; [exact Hrun |]. split; [exact Hts |]. split; [exact Hlast |].
  rewrite Hmem, Hbuf, app_nil_r. reflexivity.
Qed.

Lemma pacing_untouched_while_video_disabled_witness :
  exists w',
    deliver_all good_host [frame_at 40000000; frame_at 90000000]
      (start (set_mFrameRefreshFreq 33333333
                (set_mVideoRecEnabled true
                   (enableMessage CAMERA_MSG_PREVIEW_FRAME registered))))
    = Ok tt w' /\
    mLastFrameTimestamp (self w') = 0.
Proof.
  assert (Hreg : all_registered
            (self (start (set_mFrameRefreshFreq 33333333
                     (set_mVideoRecEnabled true
                        (enableMessage CAMERA_MSG_PREVIEW_FRAME registered)))))).
  { unfold all_registered, NULL. simpl. repeat split; discriminate. }
  destruct (pacing_untouched_while_video_disabled good_host
              [frame_at 40000000; frame_at 90000000] _ Hreg eq_refl)
    as (w' & Hrun & _ & Hlast & _).
  exists w'. split; [exact Hrun | exact Hlast].
Defined.
